(** * Vastu report relay (server.js): a shallow embedding and its properties

    The server exposes two handlers, [/api/generateReport] and
    [/api/handleChat].  Both build a prompt from the request body, post it to
    the generation endpoint and relay the text of the first candidate.

    The embedding follows the second revision of [server.js] (the one with
    [generateCoreAssessment]): JavaScript numbers are IEEE-754 binary64 values
    ([PrimFloat.float]), strings are [string], parsed JSON is an inductive
    type with JavaScript's property access, and the asynchronous handlers are
    programs of a small monad with one effect (the outbound [fetch]) and one
    kind of failure (a thrown [Error]). *)

From Stdlib Require Import ZArith QArith Qround Qabs Qpower.
From Stdlib Require Import Bool List Ascii String Lia.
From Stdlib Require Import Sorting.Sorted Sorting.Permutation.
From Stdlib Require Import Floats.PrimFloat Floats.SpecFloat Floats.FloatOps.
From Stdlib Require Import Numbers.Cyclic.Int63.Uint63.
Import ListNotations.

Set Warnings "-register-all".

Close Scope Q_scope.
Local Open Scope nat_scope.
Local Open Scope list_scope.
Local Open Scope string_scope.

(** ** Strings *)

Module JSString.

(** The double quote character, which the prompt templates contain. *)
Definition dq : string := String "034"%char EmptyString.

(** The line feed of the template literals and of ["\n"]. *)
Definition nl : string := String "010"%char EmptyString.

(** [Array.prototype.join] on an array of strings. *)
Fixpoint join (sep : string) (l : list string) : string :=
  match l with
  | [] => ""
  | [x] => x
  | x :: rest => x ++ sep ++ join sep rest
  end.

(** [String.prototype.includes]: [includes m s] holds when [m] occurs in
    [s] as a contiguous substring. *)
Fixpoint includes (m s : string) : bool :=
  prefix m s ||
  match s with
  | EmptyString => false
  | String _ s' => includes m s'
  end.

(** A string is falsy exactly when it is empty: [s || d]. *)
Definition or_default (s d : string) : string :=
  match s with
  | EmptyString => d
  | _ => s
  end.

Definition digit_char (d : Z) : ascii :=
  ascii_of_nat (48 + Z.to_nat d).

(** Decimal digits of a non-negative integer, most significant first; the
    fuel bounds the number of digits. *)
Fixpoint digits_fuel (fuel : nat) (n : Z) (acc : string) : string :=
  match fuel with
  | O => acc
  | S fuel' =>
      let acc' := String (digit_char (n mod 10)%Z) acc in
      if (n <? 10)%Z then acc' else digits_fuel fuel' (n / 10)%Z acc'
  end.

Definition digits (n : Z) : string :=
  digits_fuel (S (Z.to_nat (Z.log2 n))) n "".

(** ToString of an integer-valued number below 10^21. *)
Definition of_Z (n : Z) : string :=
  if (n <? 0)%Z then "-" ++ digits (- n)%Z else digits n.

Definition of_nat (n : nat) : string := of_Z (Z.of_nat n).

Fixpoint repeat0 (n : nat) : string :=
  match n with
  | O => ""
  | S n' => "0" ++ repeat0 n'
  end.

(** [has_char c s]: the character [c] occurs in [s]. *)
Fixpoint has_char (c : ascii) (s : string) : bool :=
  match s with
  | EmptyString => false
  | String x s' => Ascii.eqb x c || has_char c s'
  end.

Definition is_digit (c : ascii) : bool :=
  (48 <=? nat_of_ascii c)%nat && (nat_of_ascii c <=? 57)%nat.

End JSString.

(** ** Numbers *)

Module JSNumber.
Import JSString.
Local Open Scope Q_scope.
Local Open Scope string_scope.

(** A JavaScript number is a binary64 float. *)
Definition number : Type := float.

(** The number value of an array length or index. *)
Definition of_nat (n : nat) : number :=
  PrimFloat.of_uint63 (Uint63.of_Z (Z.of_nat n)).

(** The exact value [m * 2^e] of a finite non-zero float, sign apart. *)
Definition exact (m : positive) (e : Z) : Q :=
  inject_Z (Zpos m) * Qpower 2 e.

Definition pow10 (q : Z) : Q := Qpower 10 q.

(** The decimal exponent [E] of a positive [x]: [10^E <= x < 10^(E+1)],
    searched downwards from the top of the binary64 range. *)
Fixpoint decimal_exponent_from (fuel : nat) (x : Q) (E : Z) : Z :=
  match fuel with
  | O => E
  | S fuel' =>
      if Qle_bool (pow10 E) x then E
      else decimal_exponent_from fuel' x (E - 1)
  end.

Definition decimal_exponent (x : Q) : Z :=
  decimal_exponent_from 640 x 309.

(** The reals that round to [m * 2^e] under round-to-nearest-even: the
    interval between the midpoints to the two neighbouring floats, closed
    when the significand is even. *)
Definition rounds_to (m : positive) (e : Z) (c : Q) : bool :=
  let x := exact m e in
  let up := Qpower 2 (e - 1) in
  let down := if (Zpos m =? 2 ^ 52)%Z && (-1074 <? e)%Z
              then Qpower 2 (e - 2) else Qpower 2 (e - 1) in
  if Z.even (Zpos m)
  then Qle_bool (x - down) c && Qle_bool c (x + up)
  else negb (Qle_bool c (x - down)) && negb (Qle_bool (x + up) c).

(** Number::toString, steps on [n], [k] and [s]: the shortest decimal
    [s * 10^(n-k)] with [k] digits that rounds to the float, the closest
    one when several have that length.  [shortest_from fuel k] tries
    [k], [k+1], ... *)
Fixpoint shortest_from (fuel : nat) (m : positive) (e : Z) (E k : Z)
  : Z * Z :=
  let x := exact m e in
  let q := (E - k + 1)%Z in
  let lo := Qfloor (x / pow10 q) in
  let hi := (lo + 1)%Z in
  let clo := inject_Z lo * pow10 q in
  let chi := inject_Z hi * pow10 q in
  let pick (s : Z) : Z * Z :=
    if (s =? 10 ^ k)%Z then (10 ^ (k - 1), q + k + 1)%Z else (s, q + k)%Z in
  match fuel with
  | O => pick lo
  | S fuel' =>
      match rounds_to m e clo, rounds_to m e chi with
      | true, true =>
          match ((x - clo) ?= (chi - x))%Q with
          | Lt => pick lo
          | Gt => pick hi
          | Eq => if Z.even lo then pick lo else pick hi
          end
      | true, false => pick lo
      | false, true => pick hi
      | false, false => shortest_from fuel' m e E (k + 1)
      end
  end.

Definition shortest (m : positive) (e : Z) : Z * Z :=
  shortest_from 17 m e (decimal_exponent (exact m e)) 1.

(** Number::toString on the digits [s] and the exponent [n]. *)
Definition format_shortest (s n : Z) : string :=
  let ds := digits s in
  let k := Z.of_nat (String.length ds) in
  if (k <=? n)%Z && (n <=? 21)%Z then
    ds ++ repeat0 (Z.to_nat (n - k))
  else if (0 <? n)%Z && (n <=? 21)%Z then
    substring 0 (Z.to_nat n) ds ++ "." ++
    substring (Z.to_nat n) (Z.to_nat (k - n)) ds
  else if (-6 <? n)%Z && (n <=? 0)%Z then
    "0." ++ repeat0 (Z.to_nat (- n)) ++ ds
  else
    let ex := (n - 1)%Z in
    let sign := if (ex <? 0)%Z then "-" else "+" in
    let mant := if (k =? 1)%Z then ds
                else substring 0 1 ds ++ "." ++
                     substring 1 (Z.to_nat (k - 1)) ds in
    mant ++ "e" ++ sign ++ digits (Z.abs ex).

(** Number::toString (radix 10). *)
Definition toString (x : number) : string :=
  match Prim2SF x with
  | S754_nan => "NaN"
  | S754_zero _ => "0"
  | S754_infinity false => "Infinity"
  | S754_infinity true => "-Infinity"
  | S754_finite sign m e =>
      let '(s, n) := shortest m e in
      (if sign then "-" else "") ++ format_shortest s n
  end.

(** Number.prototype.toFixed(1): the integer [n] nearest to [10 x], the
    larger one on a tie, printed with one digit after the point; values
    from 10^21 on are printed by Number::toString. *)
Definition toFixed1 (x : number) : string :=
  match Prim2SF x with
  | S754_nan => "NaN"
  | S754_zero _ => "0.0"
  | S754_infinity false => "Infinity"
  | S754_infinity true => "-Infinity"
  | S754_finite sign m e =>
      let sg := if sign then "-" else "" in
      let x := exact m e in
      if Qle_bool (pow10 21) x then
        let '(s, n) := shortest m e in sg ++ format_shortest s n
      else
        let n := Qfloor (x * 10 + (1 # 2)) in
        sg ++ digits (n / 10)%Z ++ "." ++ digits (n mod 10)%Z
  end.


(** ToBoolean on a number: zero and NaN are falsy. *)
Definition truthy (x : number) : bool :=
  match Prim2SF x with
  | S754_nan | S754_zero _ => false
  | _ => true
  end.

End JSNumber.

(** ** Parsed JSON and JavaScript values *)

Module JSON.
Import JSString.

(** The value [JSON.parse] returns.  An object is the list of its
    properties; when a key is repeated the last binding is the property. *)
Inductive json : Type :=
| JNull
| JBool (b : bool)
| JNum (x : JSNumber.number)
| JStr (s : string)
| JArr (items : list json)
| JObj (fields : list (string * json)).

(** A property key: a name ([v.name]) or an index ([v[i]]). *)
Inductive key : Type :=
| Name (s : string)
| Index (i : nat).

Definition key_string (k : key) : string :=
  match k with
  | Name s => s
  | Index i => JSString.of_nat i
  end.

Fixpoint lookup (name : string) (fields : list (string * json))
  : option json :=
  match fields with
  | [] => None
  | (k, v) :: rest =>
      match lookup name rest with
      | Some v' => Some v'
      | None => if String.eqb k name then Some v else None
      end
  end.

(** [v[k]] on a value that is neither [null] nor [undefined]; [None] is
    [undefined].  Names are the data properties of JSON values: the four
    names this server reads ([candidates], [content], [parts], [text]) are
    defined by no prototype. *)
Definition get (v : json) (k : key) : option json :=
  match v with
  | JObj fields => lookup (key_string k) fields
  | JArr items =>
      match k with
      | Index i => nth_error items i
      | Name _ => None
      end
  | JStr s =>
      match k with
      | Index i =>
          match String.get i s with
          | Some c => Some (JStr (String c EmptyString))
          | None => None
          end
      | Name _ => None
      end
  | _ => None
  end.

(** [r?.[k]]: [undefined] when [r] is [null] or [undefined]. *)
Definition opt_get (r : option json) (k : key) : option json :=
  match r with
  | None | Some JNull => None
  | Some v => get v k
  end.

(** ToBoolean. *)
Definition truthy (v : json) : bool :=
  match v with
  | JNull => false
  | JBool b => b
  | JNum x => JSNumber.truthy x
  | JStr s => negb (String.eqb s "")
  | JArr _ | JObj _ => true
  end.

(** [r || d] for a string [d]. *)
Definition or_else (r : option json) (d : string) : json :=
  match r with
  | Some v => if truthy v then v else JStr d
  | None => JStr d
  end.

Fixpoint all_some (l : list (option string)) : option (list string) :=
  match l with
  | [] => Some []
  | None :: _ => None
  | Some s :: rest =>
      match all_some rest with
      | Some ss => Some (s :: ss)
      | None => None
      end
  end.

Definition has_key (name : string) (fields : list (string * json)) : bool :=
  existsb (fun kv => String.eqb (fst kv) name) fields.

(** ToString, as a template literal applies it; [None] is the TypeError
    of an object that cannot be converted to a primitive: a parsed object
    whose own [toString] property hides [Object.prototype.toString]. *)
Fixpoint to_string (v : json) : option string :=
  match v with
  | JNull => Some "null"
  | JBool true => Some "true"
  | JBool false => Some "false"
  | JNum x => Some (JSNumber.toString x)
  | JStr s => Some s
  | JArr items =>
      option_map (join ",")
        (all_some
           (map (fun item => match item with
                             | JNull => Some ""
                             | _ => to_string item
                             end) items))
  | JObj fields =>
      if has_key "toString" fields then None else Some "[object Object]"
  end.

End JSON.

(** ** Outbound calls and thrown errors *)

Module Effect.
Import JSON.

(** A content part of a generation request. *)
Inductive Part : Type :=
| InlineData (mimeType data : string)
| TextPart (text : string).

(** [contents] of a request: one user turn with its parts, or the chat
    history passed through as it came. *)
Inductive Contents : Type :=
| UserParts (parts : list Part)
| History (chatHistory : json).

Record Payload : Type := {
  contents : Contents;
  safetySettings : option (list (string * string));
  systemInstruction : option string
}.

(** One [fetch(apiUrl, { method: 'POST', ..., body })]; [body] is the
    payload object the code hands to [JSON.stringify], before it is written
    out. *)
Record Call : Type := {
  url : string;
  body : Payload
}.

(** The upstream response: [status], the body as [text()] gives it and as
    [json()] parses it ([inr] carries the message of the parse error). *)
Record Response : Type := {
  status : nat;
  bodyText : string;
  bodyJson : json + string
}.

Definition ok (r : Response) : bool :=
  (200 <=? status r)%nat && (status r <=? 299)%nat.

Inductive FetchResult : Type :=
| Rejected (message : string)
| Resolved (r : Response).

(** An asynchronous function body: it returns, throws an [Error] with a
    message, or awaits a [fetch]. *)
Inductive Prog (A : Type) : Type :=
| Ret (a : A)
| Throw (message : string)
| Fetch (c : Call) (k : FetchResult -> Prog A).

Arguments Ret {A} a.
Arguments Throw {A} message.
Arguments Fetch {A} c k.

Fixpoint bind {A B : Type} (p : Prog A) (f : A -> Prog B) : Prog B :=
  match p with
  | Ret a => f a
  | Throw m => Throw m
  | Fetch c k => Fetch c (fun r => bind (k r) f)
  end.

(** [try { p } catch (error) { h error.message }]. *)
Fixpoint try_catch {A : Type} (p : Prog A) (h : string -> Prog A)
  : Prog A :=
  match p with
  | Ret a => Ret a
  | Throw m => h m
  | Fetch c k => Fetch c (fun r => try_catch (k r) h)
  end.

(** [await fetch(...)]: a rejected promise is thrown. *)
Definition fetch (c : Call) : Prog Response :=
  Fetch c (fun r => match r with
                    | Rejected m => Throw m
                    | Resolved resp => Ret resp
                    end).

(** [await response.json()]. *)
Definition response_json (r : Response) : Prog json :=
  match bodyJson r with
  | inl v => Ret v
  | inr m => Throw m
  end.

(** The endpoint as the server sees it: the answer to a call, given the
    calls made so far (oldest first, the current one last).  A transport
    settles every call, by a response or by a rejection; the code awaits
    [fetch] without a timeout, and a call that stays pending for ever has
    no run here. *)
Definition Transport : Type := list Call -> FetchResult.

Inductive Outcome (A : Type) : Type :=
| Returned (a : A)
| Thrown (message : string).

Arguments Returned {A} a.
Arguments Thrown {A} message.

(** Running a program against a transport: the outcome and the calls
    issued, in order. *)
Fixpoint run {A : Type} (t : Transport) (log : list Call) (p : Prog A)
  : Outcome A * list Call :=
  match p with
  | Ret a => (Returned a, log)
  | Throw m => (Thrown m, log)
  | Fetch c k => run t (log ++ [c])%list (k (t (log ++ [c])%list))
  end.

End Effect.

(** ** The server *)

Module Server.
Import JSString JSON Effect.

(** *** Request bodies and configuration *)

Record Frame : Type := {
  image : string;
  heading : JSNumber.number;
  zone : string
}.

(** [floorNumber] is a string or a number. *)
Inductive FloorNumber : Type :=
| FloorString (s : string)
| FloorNumeric (x : JSNumber.number).

Record ScanData : Type := {
  capturedFrames : list Frame;
  currentRoomTag : string;
  roomLocationInHouse : string;
  floorNumber : FloorNumber;
  holisticIssues : string;
  holisticSurroundings : string
}.

Record ReportRequest : Type := {
  isDeepAnalysis : bool;
  scanData : ScanData
}.

Record ChatRequest : Type := {
  chatHistory : json;
  chatContextSummary : string
}.

(** [process.env.GEMINI_API_KEY]: [None] when the variable is not set. *)
Record Config : Type := {
  GEMINI_API_KEY : option string
}.

Definition MODEL_NAME : string := "gemini-2.5-flash".

(** [!GEMINI_API_KEY] *)
Definition key_missing (cfg : Config) : bool :=
  match GEMINI_API_KEY cfg with
  | None => true
  | Some k => String.eqb k ""
  end.

Definition key_text (cfg : Config) : string :=
  match GEMINI_API_KEY cfg with
  | None => "undefined"
  | Some k => k
  end.

Definition apiUrl (cfg : Config) : string :=
  "https://generativelanguage.googleapis.com/v1beta/models/" ++
  MODEL_NAME ++ ":generateContent?key=" ++ key_text cfg.

Record HttpResponse : Type := {
  httpStatus : nat;
  httpBody : json
}.

(** [res.json(body)]: status 200 unless [res.status] was called.  The
    body is the value handed to [res.json], which writes it out with
    [JSON.stringify]; a body made of objects and strings reaches the
    client as it is. *)
Definition res_json (b : json) : HttpResponse :=
  {| httpStatus := 200; httpBody := b |}.

Definition res_status_json (code : nat) (b : json) : HttpResponse :=
  {| httpStatus := code; httpBody := b |}.

Definition error_body (message : string) : json :=
  JObj [("error", JStr message)].

Definition text_body (v : json) : json :=
  JObj [("text", v)].

(** *** Template literals *)

(** A template literal is a sequence of literal text and substituted
    values. *)
Inductive piece : Type :=
| Lit (s : string)
| Sub (s : string).

Definition piece_text (p : piece) : string :=
  match p with
  | Lit s => s
  | Sub s => s
  end.

Definition render (t : list piece) : string :=
  fold_right (fun p acc => piece_text p ++ acc) "" t.

(** The literal text of the template at lines 229-241 of server.js, cut
    at its substitutions. *)
Definition core_query_0 : string :=
  nl ++
  "        CRITICAL INSTRUCTION: You are a Vastu Analyst AI. " ++
  "Analyze the provided ".

Definition core_query_1 : string :=
  " visual segments " ++ nl ++
  "        and the following room context: Room: ".

Definition core_query_2 : string :=
  ", Location: ".

Definition core_query_3 : string :=
  ", " ++ nl ++
  "        Concerns: ".

Definition core_query_4 : string :=
  "." ++ nl ++
  "        " ++ nl ++
  "        CRITICAL TASK: Your SOLE output must be a concise, " ++
  "bulleted list of the top 5 to 7 most severe Vastu defects " ++
  "found in this area." ++ nl ++
  "        Focus ONLY on factual defects (directional, " ++
  "elemental, positional) and use simple language." ++ nl ++
  "        " ++ nl ++
  "        Start with the exact bold markdown title: " ++ nl ++
  "        **Core Vastu Assessment (Defects Found)**" ++ nl ++
  "        " ++ nl ++
  "        Followed by a list using dashes (-). Do NOT include " ++
  "remedies." ++ nl ++
  "    ".

(** The literal text of the template at lines 284-295 of server.js, cut
    at its substitutions. *)
Definition shared_context_0 : string :=
  nl ++
  "        CORE VASTU FINDINGS (MUST BE USED AS THE BASIS FOR " ++
  "ALL REMEDIES):" ++ nl ++
  "        ".

Definition shared_context_1 : string :=
  nl ++
  "        " ++ nl ++
  "        CONTEXT FOR THIS REPORT:" ++ nl ++
  "        - Area Scanned: ".

Definition shared_context_2 : string :=
  nl ++
  "        - Location (C-Point): The ".

Definition shared_context_3 : string :=
  " is in the ".

Definition shared_context_4 : string :=
  " zone of the house." ++ nl ++
  "        - Floor: ".

Definition shared_context_5 : string :=
  nl ++
  "        - User's Concerns: ".

Definition shared_context_6 : string :=
  nl ++
  "        - Property Surroundings: ".

Definition shared_context_7 : string :=
  nl ++
  "        - Scan Data: Average Heading: ".

Definition shared_context_8 : string :=
  " degrees. Zones Covered: ".

Definition shared_context_9 : string :=
  "." ++ nl ++
  "    ".

(** The literal text of the template at lines 298-322 of server.js, cut
    at its substitutions. *)
Definition deep_template_0 : string :=
  nl ++
  "            CRITICAL INSTRUCTION: You are a Master Vastu " ++
  "Shastra Analyst AI, specializing in structural and permanent " ++
  "solutions." ++ nl ++
  "            Your task is to provide an EXPERT-LEVEL, " ++
  "STRUCTURAL Analysis based **EXCLUSIVELY** on the Core Vastu " ++
  "Findings provided below." ++ nl ++
  "            " ++ nl ++
  "            ".

Definition deep_template_1 : string :=
  nl ++
  "            " ++ nl ++
  "            CRITICAL TASK:" ++ nl ++
  "            Do NOT write a full report. Provide a structural " ++
  "analysis focusing on the defects in the CORE VASTU FINDINGS." ++ nl ++
  "            " ++ nl ++
  "            Start with this exact title (using bold markdown):" ++ nl ++
  "            **Expert Analysis (Structural Recommendations)**" ++ nl ++
  "            " ++ nl ++
  "            Then, add this disclaimer on a new line:" ++ nl ++
  "            " ++ dq ++
  "The following are high-stakes, structural remedies a " ++
  "professional consultant might suggest. These are major " ++
  "changes and should be considered carefully." ++ dq ++ nl ++
  "            " ++ nl ++
  "            Then, create two subsections, both using bullet " ++
  "points (using a dash " ++ dq ++ "-" ++ dq ++ "):" ++ nl ++
  "            " ++ nl ++
  "            **Minor Structural Recommendations**" ++ nl ++
  "            (List minor demolition/construction remedies that " ++
  "address the core defects. e.g., " ++ dq ++
  "- Relocating the stove from the North to the South-East " ++
  "corner of the kitchen." ++ dq ++ ")" ++ nl ++
  "            " ++ nl ++
  "            **Major Structural Recommendations**" ++ nl ++
  "            (List high-stakes demolition/construction " ++
  "remedies that address the core defects. e.g., " ++ dq ++
  "- The kitchen's location is a severe defect. The ideal expert " ++
  "solution is to move this kitchen to the South-East zone." ++ dq ++ ")" ++
  nl ++
  "            " ++ nl ++
  "            Formatting: Use bullet points (using -). You MUST " ++
  "use **bold markdown** for the main title and two sub-section " ++
  "titles." ++ nl ++
  "        ".

(** The literal text of the template at lines 324-350 of server.js, cut
    at its substitutions. *)
Definition standard_template_0 : string :=
  nl ++
  "            CRITICAL INSTRUCTION: You are a Master Vastu " ++
  "Shastra Analyst AI, specializing in non-structural, " ++
  "actionable remedies." ++ nl ++
  "            Your response must be a single, structured Vastu " ++
  "Report, following all instructions below exactly. Use the " ++
  "Core Vastu Findings to guide your report." ++ nl ++
  "            " ++ nl ++
  "            ".

Definition standard_template_1 : string :=
  nl ++
  nl ++
  "            Based on ALL this data, provide a comprehensive " ++
  "report. Tailor your analysis and remedies in Section I and IV " ++
  "to address the user's primary concerns and the CORE VASTU " ++
  "FINDINGS." ++ nl ++
  "            " ++ nl ++
  "            The report must be structured into FIVE " ++
  "consecutive sections. Use **bold markdown** for all section " ++
  "titles:" ++ nl ++
  nl ++
  "            **I. Executive Summary (Layman's Terms)**: Simple " ++
  "summary. Cover the 2-3 most critical findings (from CORE " ++
  "ASSESSMENT) and non-structural remedies, linking them to the " ++
  "user's primary concerns (if provided)." ++ nl ++
  "            Ensure you mention the Vastu Zone compliance of " ++
  "the scanned area (".

Definition standard_template_2 : string :=
  ") based on its location (".

Definition standard_template_3 : string :=
  ")." ++ nl ++
  nl ++
  "            **II. Directional Data and Environmental " ++
  "Assessment**: Technical analysis of the observed headings and " ++
  "visual elements." ++ nl ++
  nl ++
  "            **III. Analysis of Vastu Compliance**: Technical " ++
  "findings, issues, and defects found, explicitly referencing " ++
  "the points in the CORE ASSESSMENT." ++ nl ++
  nl ++
  "            **IV. Remedial Recommendations (Advanced)**: " ++
  "CRITICAL: This section MUST use bullet points (using a dash " ++ dq ++
  "-" ++ dq ++
  "). Structure this section into two sub-sections using **bold " ++
  "markdown**. All remedies must be NON-STRUCTURAL (no " ++
  "construction or demolition suggested):" ++ nl ++
  "            **Minor Defects & Remedies**" ++ nl ++
  "            (List non-structural remedies here, like placing " ++
  "plants, changing colors, or adding mirrors.)" ++ nl ++
  "            **Major Defects & Remedies**" ++ nl ++
  "            (List more significant NON-STRUCTURAL remedies " ++
  "here, like moving heavy furniture or changing bed positions.)" ++ nl ++
  "            " ++ nl ++
  "            **V. Vastu Tips & Remedies (Actionable Advice)**: " ++
  "A short, separate section offering quick, general Vastu tips " ++
  "related to this specific room type." ++ nl ++
  nl ++
  "            Formatting requirements: Use paragraph breaks for " ++
  "readability. You MUST use bullet points (using -). You MUST " ++
  "use **bold markdown** for all section and sub-section titles." ++ nl ++
  "        ".

(** The literal text of the template at lines 367-367 of server.js, cut
    at its substitutions. *)
Definition segment_marker_0 : string :=
  "--- Visual Data Segment ".

Definition segment_marker_1 : string :=
  " Captured at Heading ".

Definition segment_marker_2 : string :=
  " degrees (Vastu Zone: ".

Definition segment_marker_3 : string :=
  ") ---".

(** The literal text of the template at lines 426-429 of server.js, cut
    at its substitutions. *)
Definition chat_system_prompt_0 : string :=
  "You are a helpful and friendly Vastu Shastra AI assistant." ++ nl ++
  "        Your goal is to answer the user's questions. If the " ++
  "user asks a question about the Vastu analysis report, you " ++
  "MUST use the following context: --- REPORT CONTEXT START --- ".

Definition chat_system_prompt_1 : string :=
  " --- REPORT CONTEXT END ---" ++ nl ++
  "        If the user asks a general Vastu question, answer it " ++
  "concisely." ++ nl ++
  "        Keep your answers simple and friendly. You may use " ++
  "**bold markdown** for emphasis. For bulleted lists, you MUST " ++
  "use a dash (-) and NOT an asterisk (" ++ "*" ++ ").".

(** *** Prompt construction *)

(** The text marker of a frame (line 367); [index] counts from 0. *)
Definition segment_marker (index : nat) (frame : Frame) : string :=
  render [Lit segment_marker_0; Sub (JSString.of_nat (index + 1));
          Lit segment_marker_1; Sub (JSNumber.toFixed1 (heading frame));
          Lit segment_marker_2; Sub (zone frame);
          Lit segment_marker_3].

(** [capturedFrames.forEach((frame, index) => { parts.push(image);
    parts.push(marker) })], from [index] on. *)
Fixpoint push_frames (frames : list Frame) (index : nat)
  (parts : list Part) : list Part :=
  match frames with
  | [] => parts
  | frame :: rest =>
      push_frames rest (S index)
        (parts ++ [InlineData "image/jpeg" (image frame);
                   TextPart (segment_marker index frame)])%list
  end.

Definition frame_parts (sd : ScanData) : list Part :=
  push_frames (capturedFrames sd) 0 [].

(** The instruction of the core assessment (lines 229-241). *)
Definition core_query (sd : ScanData) (parts : list Part) : string :=
  render [Lit core_query_0;
          Sub (JSString.of_Z (Z.of_nat (List.length parts) - 1));
          Lit core_query_1; Sub (currentRoomTag sd);
          Lit core_query_2; Sub (roomLocationInHouse sd);
          Lit core_query_3; Sub (holisticIssues sd);
          Lit core_query_4].

(** [capturedFrames.reduce((sum, frame) => sum + frame.heading, 0)
    / capturedFrames.length] *)
Definition avgHeading (sd : ScanData) : JSNumber.number :=
  (fold_left (fun sum frame => sum + heading frame) (capturedFrames sd) 0
   / JSNumber.of_nat (List.length (capturedFrames sd)))%float.

(** [Set.prototype.add] on the insertion-ordered elements of a set. *)
Definition set_add (s : list string) (x : string) : list string :=
  if existsb (String.eqb x) s then s else (s ++ [x])%list.

(** [[...new Set(values)]] *)
Definition set_of (values : list string) : list string :=
  fold_left set_add values [].

(** [[...new Set(capturedFrames.map(f => f.zone))].join(', ')] *)
Definition vastuZonesObserved (sd : ScanData) : string :=
  join ", " (set_of (map zone (capturedFrames sd))).

(** [floorNumber || 'N/A'] inside a template literal. *)
Definition floor_text (f : FloorNumber) : string :=
  match f with
  | FloorString s => or_default s "N/A"
  | FloorNumeric x =>
      if JSNumber.truthy x then JSNumber.toString x else "N/A"
  end.

(** [sharedContext] (lines 284-295). *)
Definition sharedContext (sd : ScanData) (coreAssessment : string)
  : list piece :=
  [Lit shared_context_0; Sub coreAssessment;
   Lit shared_context_1; Sub (currentRoomTag sd);
   Lit shared_context_2; Sub (currentRoomTag sd);
   Lit shared_context_3; Sub (or_default (roomLocationInHouse sd) "UNKNOWN");
   Lit shared_context_4; Sub (floor_text (floorNumber sd));
   Lit shared_context_5; Sub (holisticIssues sd);
   Lit shared_context_6; Sub (holisticSurroundings sd);
   Lit shared_context_7; Sub (JSNumber.toFixed1 (avgHeading sd));
   Lit shared_context_8; Sub (vastuZonesObserved sd);
   Lit shared_context_9].

(** [getAiQuery(scanData, isDeepAnalysis, coreAssessment)] (lines
    271-352).  [coreAssessment] is the string the template literal
    obtains from the value it is given; the caller converts it. *)
Definition getAiQuery (sd : ScanData) (isDeep : bool)
  (coreAssessment : string) : string :=
  let shared := render (sharedContext sd coreAssessment) in
  if isDeep then
    render [Lit deep_template_0; Sub shared; Lit deep_template_1]
  else
    render [Lit standard_template_0; Sub shared;
            Lit standard_template_1; Sub (currentRoomTag sd);
            Lit standard_template_2; Sub (roomLocationInHouse sd);
            Lit standard_template_3].

(** *** The generation calls *)

Notation "x <- p ;; k" := (bind p (fun x => k))
  (at level 61, p at next level, right associativity).

Definition block_none : list (string * string) :=
  [("HARM_CATEGORY_HARASSMENT", "BLOCK_NONE");
   ("HARM_CATEGORY_HATE_SPEECH", "BLOCK_NONE");
   ("HARM_CATEGORY_SEXUALLY_EXPLICIT", "BLOCK_NONE");
   ("HARM_CATEGORY_DANGEROUS_CONTENT", "BLOCK_NONE")].

Definition generation_call (cfg : Config) (parts : list Part) : Call :=
  {| url := apiUrl cfg;
     body := {| contents := UserParts parts;
                safetySettings := Some block_none;
                systemInstruction := None |} |}.

(** [result.candidates?.[0]?.content?.parts?.[0]?.text] on a [result]
    that is not [null]. *)
Definition candidate_text (result : json) : option json :=
  opt_get
    (opt_get
       (opt_get
          (opt_get
             (opt_get (get result (Name "candidates")) (Index 0))
             (Name "content"))
          (Name "parts"))
       (Index 0))
    (Name "text").

(** The same expression as the handlers evaluate it: the first access is
    not optional and throws on [null] (the message is V8's). *)
Definition first_candidate_text (result : json) : Prog (option json) :=
  match result with
  | JNull =>
      Throw "Cannot read properties of null (reading 'candidates')"
  | _ => Ret (candidate_text result)
  end.

(** A template literal's conversion of a value to a string. *)
Definition interpolate (v : json) : Prog string :=
  match to_string v with
  | Some s => Ret s
  | None => Throw "Cannot convert object to primitive value"
  end.

Definition assessment_placeholder : string :=
  "**Core Vastu Assessment (Defects Found)**" ++ nl ++
  "- Assessment failed to generate. Please rescan.".

(** [generateCoreAssessment(scanData, parts)] (lines 225-268). *)
Definition generateCoreAssessment (cfg : Config) (sd : ScanData)
  (parts : list Part) : Prog json :=
  if key_missing cfg then
    Throw "Server API Key is not configured for core assessment."
  else
    let query := core_query sd parts in
    response <- fetch (generation_call cfg (parts ++ [TextPart query])%list) ;;
    if negb (ok response) then
      Throw ("Google API Error (Core Assessment): " ++
             JSString.of_nat (status response) ++ " - " ++
             bodyText response)
    else
      result <- response_json response ;;
      text <- first_candidate_text result ;;
      Ret (or_else text assessment_placeholder).

(** The separator between the core assessment and the final text
    (line 407). *)
Definition separator : string := nl ++ nl ++ "---" ++ nl ++ nl.

(** The [try] block of [/api/generateReport] (lines 361-409). *)
Definition generateReport_body (cfg : Config) (req : ReportRequest)
  : Prog HttpResponse :=
  let sd := scanData req in
  let parts := frame_parts sd in
  coreAssessment <- generateCoreAssessment cfg sd parts ;;
  coreText <- interpolate coreAssessment ;;
  let userQuery := getAiQuery sd (isDeepAnalysis req) coreText in
  let parts := (parts ++ [TextPart userQuery])%list in
  response <- fetch (generation_call cfg parts) ;;
  if negb (ok response) then
    Throw ("Google API Error: " ++ JSString.of_nat (status response) ++
           " - " ++ bodyText response)
  else
    result <- response_json response ;;
    text <- first_candidate_text result ;;
    let aiResponse := or_else text "" in
    aiText <- interpolate aiResponse ;;
    let finalReport := coreText ++ separator ++ aiText in
    Ret (res_json (text_body (JStr finalReport))).

(** [app.post('/api/generateReport', ...)] (lines 355-415). *)
Definition generateReport (cfg : Config) (req : ReportRequest)
  : Prog HttpResponse :=
  if key_missing cfg then
    Ret (res_status_json 500
           (error_body "Server API Key is not configured."))
  else
    try_catch (generateReport_body cfg req)
      (fun message => Ret (res_status_json 500 (error_body message))).

Definition chatSystemPrompt (summary : string) : string :=
  render [Lit chat_system_prompt_0; Sub summary; Lit chat_system_prompt_1].

Definition chat_fallback : string :=
  "Sorry, I couldn't process that query.".

(** The [try] block of [/api/handleChat] (lines 423-454). *)
Definition handleChat_body (cfg : Config) (req : ChatRequest)
  : Prog HttpResponse :=
  let payload :=
    {| contents := History (chatHistory req);
       safetySettings := None;
       systemInstruction :=
         Some (chatSystemPrompt (chatContextSummary req)) |} in
  response <- fetch {| url := apiUrl cfg; body := payload |} ;;
  if negb (ok response) then
    Throw ("Google API Error: " ++ JSString.of_nat (status response) ++
           " - " ++ bodyText response)
  else
    result <- response_json response ;;
    text <- first_candidate_text result ;;
    let aiResponse := or_else text chat_fallback in
    Ret (res_json (text_body aiResponse)).

(** [app.post('/api/handleChat', ...)] (lines 418-460). *)
Definition handleChat (cfg : Config) (req : ChatRequest)
  : Prog HttpResponse :=
  if key_missing cfg then
    Ret (res_status_json 500
           (error_body "Server API Key is not configured."))
  else
    try_catch (handleChat_body cfg req)
      (fun message => Ret (res_status_json 500 (error_body message))).

(** The two generation calls of a report and the call of a chat turn, as
    the handlers issue them. *)
Definition stage1_call (cfg : Config) (sd : ScanData) : Call :=
  generation_call cfg
    (frame_parts sd ++ [TextPart (core_query sd (frame_parts sd))])%list.

Definition stage2_call (cfg : Config) (req : ReportRequest)
  (coreText : string) : Call :=
  generation_call cfg
    (frame_parts (scanData req) ++
     [TextPart (getAiQuery (scanData req) (isDeepAnalysis req) coreText)])%list.

Definition chat_call (cfg : Config) (req : ChatRequest) : Call :=
  {| url := apiUrl cfg;
     body := {| contents := History (chatHistory req);
                safetySettings := None;
                systemInstruction :=
                  Some (chatSystemPrompt (chatContextSummary req)) |} |}.

(** A handler run from an empty log of calls. *)
Definition serve {A : Type} (t : Transport) (p : Prog A)
  : Outcome A * list Call :=
  run t [] p.

End Server.

(** ** The first revision of the server *)

(** [server.js] opens with an earlier revision (lines 1-208) that builds
    the report with one generation call.  Its chat handler is the one of
    the second revision, character for character. *)

Module ServerV1.
Import JSString JSON Effect Server.

(** The literal text of the template at lines 31-62 of server.js, cut
    at its substitutions. *)
Definition deep_text_0 : string :=
  nl ++
  "            CRITICAL INSTRUCTION: You are a Master Vastu " ++
  "Shastra Analyst AI." ++ nl ++
  "            You will be given context about a user's home, " ++
  "their life concerns, and 8 images from a Vastu scan." ++ nl ++
  "            " ++ nl ++
  "            CONTEXT:" ++ nl ++
  "            - Area Scanned: ".

Definition deep_text_1 : string :=
  nl ++
  "            - Location (C-Point): The ".

Definition deep_text_2 : string :=
  " is in the ".

Definition deep_text_3 : string :=
  " zone of the house." ++ nl ++
  "            - Floor: ".

Definition deep_text_4 : string :=
  nl ++
  "            - User's Concerns: ".

Definition deep_text_5 : string :=
  nl ++
  "            - Property Surroundings: ".

Definition deep_text_6 : string :=
  nl ++
  "            - Scan Data: The 8 images cover these zones: ".

Definition deep_text_7 : string :=
  "." ++ nl ++
  nl ++
  "            CRITICAL TASK:" ++ nl ++
  "            Do NOT write a full report. " ++ nl ++
  "            Based on ALL the context, provide a bulleted list " ++
  "of EXPERT-LEVEL, STRUCTURAL recommendations for the most " ++
  "severe Vastu defects you can identify." ++ nl ++
  "            " ++ nl ++
  "            Start with this exact title (using bold markdown):" ++ nl ++
  "            **Expert Analysis (Structural Recommendations)**" ++ nl ++
  "            " ++ nl ++
  "            Then, add this disclaimer on a new line:" ++ nl ++
  "            " ++ dq ++
  "The following are high-stakes, structural remedies a " ++
  "professional consultant might suggest. These are major " ++
  "changes and should be considered carefully." ++ dq ++ nl ++
  "            " ++ nl ++
  "            Then, create two subsections, both using bullet " ++
  "points (using a dash " ++ dq ++ "-" ++ dq ++ "):" ++ nl ++
  "            " ++ nl ++
  "            **Minor Structural Recommendations**" ++ nl ++
  "            (List minor but structural/demolition-based " ++
  "remedies here. e.g., " ++ dq ++
  "- Relocating the stove from the North to the South-East " ++
  "corner of the kitchen." ++ dq ++ ")" ++ nl ++
  "            " ++ nl ++
  "            **Major Structural Recommendations**" ++ nl ++
  "            (List high-stakes remedies here. e.g., " ++ dq ++
  "- The kitchen's location in the North-East is a severe " ++
  "defect. The ideal expert solution is to move this kitchen to " ++
  "the South-East zone." ++ dq ++ ")" ++ nl ++
  "            " ++ nl ++
  "            Formatting: Use bullet points (using -). You MUST " ++
  "use **bold markdown** for the main title and two sub-section " ++
  "titles. Do NOT use asterisks (" ++ "*" ++ ") for bullet points." ++ nl ++
  "        ".

(** The literal text of the template at lines 64-99 of server.js, cut
    at its substitutions. *)
Definition standard_text_0 : string :=
  nl ++
  "            CRITICAL INSTRUCTION: You are a Master Vastu " ++
  "Shastra Analyst AI." ++ nl ++
  "            Your response must be a single, structured Vastu " ++
  "Report, following all instructions below exactly." ++ nl ++
  nl ++
  "            Analyze the provided 8 visual data segments and " ++
  "their corresponding Vastu Zone data." ++ nl ++
  "            - Area Scanned: ".

Definition standard_text_1 : string :=
  nl ++
  "            - Location (C-Point): The ".

Definition standard_text_2 : string :=
  " is in the ".

Definition standard_text_3 : string :=
  " zone of the house." ++ nl ++
  "            - Floor: ".

Definition standard_text_4 : string :=
  nl ++
  "            - Scan Data: The Average Compass Heading observed " ++
  "was ".

Definition standard_text_5 : string :=
  " degrees." ++ nl ++
  "            - Zones Covered: The scan covered: ".

Definition standard_text_6 : string :=
  "." ++ nl ++
  nl ++
  "            CRITICAL HOLISTIC CONTEXT:" ++ nl ++
  "            - User's Primary Concerns: ".

Definition standard_text_7 : string :=
  nl ++
  "            - Property Surroundings: ".

Definition standard_text_8 : string :=
  nl ++
  "            " ++ nl ++
  "            Based on ALL this data, provide a comprehensive " ++
  "report. Tailor your analysis and remedies in Section I and IV " ++
  "to address the user's primary concerns." ++ nl ++
  "            " ++ nl ++
  "            The report must be structured into FIVE " ++
  "consecutive sections. Use **bold markdown** for all section " ++
  "titles:" ++ nl ++
  nl ++
  "            **I. Executive Summary (Layman's Terms)**: Simple " ++
  "summary. Cover the 2-3 most critical findings and remedies, " ++
  "linking them to the user's primary concerns (if provided)." ++ nl ++
  "            Ensure you mention the Vastu Zone compliance of " ++
  "the scanned area (".

Definition standard_text_9 : string :=
  ") based on its location (".

Definition standard_text_10 : string :=
  ")." ++ nl ++
  nl ++
  "            **II. Directional Data and Environmental " ++
  "Assessment**: Technical analysis of the observed headings and " ++
  "visual elements." ++ nl ++
  nl ++
  "            **III. Analysis of Vastu Compliance**: Technical " ++
  "findings, issues, and defects found." ++ nl ++
  nl ++
  "            **IV. Remedial Recommendations (Advanced)**: " ++
  "CRITICAL: This section MUST use bullet points (using a dash " ++ dq ++
  "-" ++ dq ++
  "). Structure this section into two sub-sections using **bold " ++
  "markdown**:" ++ nl ++
  "            **Minor Defects & Remedies**" ++ nl ++
  "            (List non-structural remedies here, like placing " ++
  "plants, changing colors, or adding mirrors.)" ++ nl ++
  "            **Major Defects & Remedies**" ++ nl ++
  "            (List more significant remedies here, like moving " ++
  "heavy furniture or changing bed positions. Do NOT suggest " ++
  "structural demolition here.)" ++ nl ++
  "            " ++ nl ++
  "            **V. Vastu Tips & Remedies (Actionable Advice)**: " ++
  "A short, separate section offering quick, general Vastu tips " ++
  "related to this specific room type." ++ nl ++
  nl ++
  "            Formatting requirements: Use paragraph breaks for " ++
  "readability. You MUST use bullet points (using -). You MUST " ++
  "use **bold markdown** for all section and sub-section titles. " ++
  "Do NOT use asterisks (" ++ "*" ++ ") for bullet points." ++ nl ++
  "        ".

(** [getAiQuery(scanData, isDeepAnalysis)] (lines 17-101).  The average
    heading is computed in both modes and used in the standard one. *)
Definition getAiQuery (sd : ScanData) (isDeep : bool) : string :=
  if isDeep then
    render [Lit deep_text_0; Sub (currentRoomTag sd);
            Lit deep_text_1; Sub (currentRoomTag sd);
            Lit deep_text_2;
            Sub (or_default (roomLocationInHouse sd) "UNKNOWN");
            Lit deep_text_3; Sub (floor_text (floorNumber sd));
            Lit deep_text_4; Sub (holisticIssues sd);
            Lit deep_text_5; Sub (holisticSurroundings sd);
            Lit deep_text_6; Sub (vastuZonesObserved sd);
            Lit deep_text_7]
  else
    render [Lit standard_text_0; Sub (currentRoomTag sd);
            Lit standard_text_1; Sub (currentRoomTag sd);
            Lit standard_text_2;
            Sub (or_default (roomLocationInHouse sd) "UNKNOWN");
            Lit standard_text_3; Sub (floor_text (floorNumber sd));
            Lit standard_text_4; Sub (JSNumber.toFixed1 (avgHeading sd));
            Lit standard_text_5; Sub (vastuZonesObserved sd);
            Lit standard_text_6; Sub (holisticIssues sd);
            Lit standard_text_7; Sub (holisticSurroundings sd);
            Lit standard_text_8; Sub (currentRoomTag sd);
            Lit standard_text_9; Sub (roomLocationInHouse sd);
            Lit standard_text_10].

(** [capturedFrames.forEach((frame, index) => {
    imageParts.push(image); textMetadataParts.push(marker) })], from
    [index] on (lines 116-119). *)
Fixpoint collect_frames (frames : list Frame) (index : nat)
  (imageParts textMetadataParts : list Part) : list Part * list Part :=
  match frames with
  | [] => (imageParts, textMetadataParts)
  | frame :: rest =>
      collect_frames rest (S index)
        (imageParts ++ [InlineData "image/jpeg" (image frame)])%list
        (textMetadataParts ++ [TextPart (segment_marker index frame)])%list
  end.

(** [parts] after the two [parts.push(...)] of lines 121-122. *)
Definition frame_parts (sd : ScanData) : list Part :=
  let '(imageParts, textMetadataParts) :=
    collect_frames (capturedFrames sd) 0 [] [] in
  (([] ++ imageParts) ++ textMetadataParts)%list.

(** The only generation call of a report. *)
Definition report_call (cfg : Config) (req : ReportRequest) : Call :=
  generation_call cfg
    (frame_parts (scanData req) ++
     [TextPart (getAiQuery (scanData req) (isDeepAnalysis req))])%list.

(** The [try] block of [/api/generateReport] (lines 110-153). *)
Definition generateReport_body (cfg : Config) (req : ReportRequest)
  : Prog HttpResponse :=
  let sd := scanData req in
  let parts := frame_parts sd in
  let userQuery := getAiQuery sd (isDeepAnalysis req) in
  let parts := (parts ++ [TextPart userQuery])%list in
  response <- fetch (generation_call cfg parts) ;;
  if negb (ok response) then
    Throw ("Google API Error: " ++ JSString.of_nat (status response) ++
           " - " ++ bodyText response)
  else
    result <- response_json response ;;
    text <- first_candidate_text result ;;
    let aiResponse := or_else text "" in
    Ret (res_json (text_body aiResponse)).

(** [app.post('/api/generateReport', ...)] (lines 104-159). *)
Definition generateReport (cfg : Config) (req : ReportRequest)
  : Prog HttpResponse :=
  if key_missing cfg then
    Ret (res_status_json 500
           (error_body "Server API Key is not configured."))
  else
    try_catch (generateReport_body cfg req)
      (fun message => Ret (res_status_json 500 (error_body message))).

End ServerV1.

(** ** Mock generation client *)

Module Mock.
Import JSON Effect.

(** A well-formed generation result whose first candidate carries
    [text]. *)
Definition generation_result (text : json) : json :=
  JObj [("candidates",
         JArr [JObj [("content",
                      JObj [("parts",
                             JArr [JObj [("text", text)]])])]])].

Definition respond (code : nat) (raw : string) (parsed : json + string)
  : FetchResult :=
  Resolved {| status := code; bodyText := raw; bodyJson := parsed |}.

(** The client that answers the i-th call with the i-th element of
    [answers] and rejects once they are used up. *)
Definition scripted (answers : list FetchResult) : Transport :=
  fun log =>
    match nth_error answers (List.length log - 1) with
    | Some a => a
    | None => Rejected "connection refused"
    end.

(** The client that echoes fixed strings, one per call. *)
Definition echo (texts : list string) : Transport :=
  scripted
    (map (fun s => respond 200 "" (inl (generation_result (JStr s))))
       texts).

End Mock.

(** ** Reference definitions for the statements *)

Module Spec.
Import JSString JSON Effect Server.

(** The frames in order, each as its image part followed by its text
    marker; [index] is the index of the first frame. *)
Fixpoint interleaved (frames : list Frame) (index : nat) : list Part :=
  match frames with
  | [] => []
  | frame :: rest =>
      InlineData "image/jpeg" (image frame)
      :: TextPart (segment_marker index frame)
      :: interleaved rest (S index)
  end.


(** The text markers of the frames in order; [index] is the index of the
    first frame. *)
Fixpoint markers (frames : list Frame) (index : nat) : list Part :=
  match frames with
  | [] => []
  | frame :: rest =>
      TextPart (segment_marker index frame) :: markers rest (S index)
  end.

Definition image_part (frame : Frame) : Part :=
  InlineData "image/jpeg" (image frame).

(** The distinct elements of a list in order of first appearance: each
    element is kept where it first occurs and dropped afterwards. *)
Fixpoint first_occurrences (l : list string) : list string :=
  match l with
  | [] => []
  | x :: rest =>
      x :: filter (fun y => negb (String.eqb y x)) (first_occurrences rest)
  end.


(** [outside acc y]: [y] is not among [acc]. *)
Definition outside (acc : list string) (y : string) : bool :=
  negb (existsb (String.eqb y) acc).

(** The position at which [x] first appears in [l] (the length of [l]
    when it does not appear). *)
Fixpoint first_index (x : string) (l : list string) : nat :=
  match l with
  | [] => 0
  | y :: rest => if String.eqb y x then 0 else S (first_index x rest)
  end.

(** The real number a JavaScript number stands for; NaN and the
    infinities stand for none. *)
Definition value (x : JSNumber.number) : option Q :=
  match Prim2SF x with
  | S754_zero _ => Some 0%Q
  | S754_finite sign m e =>
      Some (if sign then (- JSNumber.exact m e)%Q else JSNumber.exact m e)
  | _ => None
  end.

(** The real numbers a list of JavaScript numbers stands for. *)
Fixpoint values (hs : list JSNumber.number) : option (list Q) :=
  match hs with
  | [] => Some []
  | h :: rest =>
      match value h, values rest with
      | Some q, Some qs => Some (q :: qs)
      | _, _ => None
      end
  end.










End Spec.

(** ** What a generation call yields *)

Module Answer.
Import JSString JSON Effect Server.

(** The four call sites handle the endpoint's answer in the same way: a
    rejected [fetch] and an unparsable body are thrown as they are, a
    status outside 200-299 is thrown under [prefix], [null] cannot be read
    and a missing or falsy text becomes [fallback]. *)
Definition outcome (prefix fallback : string) (a : FetchResult)
  : Outcome json :=
  match a with
  | Rejected m => Thrown m
  | Resolved r =>
      if ok r then
        match bodyJson r with
        | inr m => Thrown m
        | inl JNull =>
            Thrown "Cannot read properties of null (reading 'candidates')"
        | inl j => Returned (or_else (candidate_text j) fallback)
        end
      else
        Thrown (prefix ++ JSString.of_nat (status r) ++ " - " ++ bodyText r)
  end.

(** The response of a handler's [catch] block. *)
Definition failed (message : string) : HttpResponse :=
  res_status_json 500 (error_body message).

(** The response of a report once the two texts are known. *)
Definition report_response (cfg : Config) (req : ReportRequest)
  (t : Transport) (coreAssessment : json) : HttpResponse * list Call :=
  let c1 := stage1_call cfg (scanData req) in
  match to_string coreAssessment with
  | None => (failed "Cannot convert object to primitive value", [c1])
  | Some coreText =>
      let c2 := stage2_call cfg req coreText in
      (match outcome "Google API Error: " "" (t [c1; c2]) with
       | Thrown m => failed m
       | Returned aiResponse =>
           match to_string aiResponse with
           | None => failed "Cannot convert object to primitive value"
           | Some aiText =>
               res_json (text_body (JStr (coreText ++ separator ++ aiText)))
           end
       end, [c1; c2])
  end.

End Answer.

(** ** Section markers of the two report templates *)

Module Marker.
Import JSString JSON Effect Server.

(** The five bold section titles of the standard report. *)
Definition standard_markers : list string :=
  ["**I. Executive Summary (Layman's Terms)**";
   "**II. Directional Data and Environmental Assessment**";
   "**III. Analysis of Vastu Compliance**";
   "**IV. Remedial Recommendations (Advanced)**";
   "**V. Vastu Tips & Remedies (Actionable Advice)**"].

(** The bold title and the two bold subsection titles of the structural
    analysis. *)
Definition deep_markers : list string :=
  ["**Expert Analysis (Structural Recommendations)**";
   "**Minor Structural Recommendations**";
   "**Major Structural Recommendations**"].

(** [free_of markers s]: no marker occurs in [s]. *)
Definition free_of (markers : list string) (s : string) : bool :=
  forallb (fun m => negb (includes m s)) markers.

(** The strings a request and the core assessment contribute to the final
    prompt as they are. *)
Definition interpolated_strings (sd : ScanData) (coreAssessment : string)
  : list string :=
  (coreAssessment :: currentRoomTag sd :: roomLocationInHouse sd ::
   holisticIssues sd :: holisticSurroundings sd ::
   match floorNumber sd with
   | FloorString s => [s]
   | FloorNumeric _ => []
   end ++ map zone (capturedFrames sd))%list.

(** [proper_prefix s m]: [s] is a prefix of [m] and shorter than [m]. *)
Definition proper_prefix (s m : string) : bool :=
  prefix s m && (String.length s <? String.length m)%nat.

(** No non-empty suffix of [l] is a proper prefix of [m]: an occurrence of
    [m] cannot start in [l] and run past its end. *)
Fixpoint no_suffix_starts (m l : string) : bool :=
  match l with
  | EmptyString => true
  | String _ l' => negb (proper_prefix l m) && no_suffix_starts m l'
  end.

(** No non-empty proper suffix of [m] is a prefix of [l]: an occurrence of
    [m] cannot start before [l] and end inside it. *)
Fixpoint no_tail_in_front (m l : string) : bool :=
  match m with
  | EmptyString => true
  | String _ m' =>
      match m' with
      | EmptyString => true
      | _ => negb (prefix m' l)
      end && no_tail_in_front m' l
  end.

(** A literal [l] that no occurrence of [m] can lie in, start in, end in
    or cover. *)
Definition lit_safe (m l : string) : bool :=
  negb (includes m l) && no_suffix_starts m l &&
  no_tail_in_front m l && negb (includes l m).

Definition lits_safe (m : string) (t : list piece) : bool :=
  forallb (fun p => match p with
                    | Lit l => lit_safe m l
                    | Sub _ => true
                    end) t.

(** No two substitutions are adjacent. *)
Fixpoint subs_separated (t : list piece) : bool :=
  match t with
  | [] => true
  | p :: rest =>
      match p, rest with
      | Sub _, Sub _ :: _ => false
      | _, _ => true
      end && subs_separated rest
  end.

(** The final prompt as one sequence of pieces, the shared context spliced
    in. *)
Definition final_pieces (sd : ScanData) (isDeep : bool)
  (coreAssessment : string) : list piece :=
  if isDeep then
    (Lit deep_template_0 :: sharedContext sd coreAssessment ++
     [Lit deep_template_1])%list
  else
    (Lit standard_template_0 :: sharedContext sd coreAssessment ++
     [Lit standard_template_1; Sub (currentRoomTag sd);
      Lit standard_template_2; Sub (roomLocationInHouse sd);
      Lit standard_template_3])%list.

(** The literal text of the final prompt, and the separator of the zone
    labels. *)
Definition template_literals (isDeep : bool) : list string :=
  ((if isDeep then [deep_template_0; deep_template_1]
    else [standard_template_0; standard_template_1;
          standard_template_2; standard_template_3]) ++
   [shared_context_0; shared_context_1; shared_context_2;
    shared_context_3; shared_context_4; shared_context_5;
    shared_context_6; shared_context_7; shared_context_8;
    shared_context_9; ", "])%list.

(** The zone labels joined by [", "], as pieces. *)
Fixpoint joined_pieces (l : list string) : list piece :=
  match l with
  | [] => []
  | [x] => [Sub x]
  | x :: rest => Sub x :: Lit ", " :: joined_pieces rest
  end.

End Marker.

(** ** Concrete requests used by the examples *)

Module Sample.
Import JSON Effect Server.

Definition cfg : Config := {| GEMINI_API_KEY := Some "test-key" |}.

Definition no_key : Config := {| GEMINI_API_KEY := None |}.

Definition frame (h : JSNumber.number) (z : string) : Frame :=
  {| image := "/9j/4AAQ"; heading := h; zone := z |}.

Definition scan (frames : list Frame) : ScanData :=
  {| capturedFrames := frames;
     currentRoomTag := "Kitchen";
     roomLocationInHouse := "South-East";
     floorNumber := FloorString "1";
     holisticIssues := "Poor sleep";
     holisticSurroundings := "Park to the north" |}.

Definition three_frames : list Frame :=
  [frame 10%float "North"; frame 20%float "South";
   frame 30%float "North"].


Definition report (deep : bool) (frames : list Frame) : ReportRequest :=
  {| isDeepAnalysis := deep; scanData := scan frames |}.

(** A scan whose free-text concerns quote a section title of the standard
    report. *)
Definition quoting_scan : ScanData :=
  {| capturedFrames := three_frames;
     currentRoomTag := "Kitchen";
     roomLocationInHouse := "South-East";
     floorNumber := FloorNumeric 2%float;
     holisticIssues :=
       "Keep the heading **I. Executive Summary (Layman's Terms)** short";
     holisticSurroundings := "Park to the north" |}.

Definition chat : ChatRequest :=
  {| chatHistory :=
       JArr [JObj [("role", JStr "user");
                   ("parts", JArr [JObj [("text", JStr "Hello")]])]];
     chatContextSummary := "Kitchen in the South-East" |}.

End Sample.

(** * Properties *)

(** ** Strings *)

Section StringFacts.
Import JSString.

Lemma append_nil_r (s : string) : s ++ "" = s.
Proof.
  induction s as [| c s IH]; simpl; [reflexivity | now rewrite IH].
Qed.

Lemma append_assoc (a b c : string) : (a ++ b) ++ c = a ++ b ++ c.
Proof.
  induction a as [| x a IH]; simpl; [reflexivity | now rewrite IH].
Qed.

Lemma length_append (a b : string) :
  String.length (a ++ b) = String.length a + String.length b.
Proof.
  induction a as [| x a IH]; simpl; [reflexivity | now rewrite IH].
Qed.

End StringFacts.

(** ** Occurrences of a marker in a rendered template *)

Section OccurrenceFacts.
Import JSString Server Marker.

Lemma includes_unfold (m s : string) :
  includes m s =
  prefix m s || match s with
                | EmptyString => false
                | String _ s' => includes m s'
                end.
Proof. destruct s; reflexivity. Qed.

Lemma prefix_nil_inv (m : string) : prefix m "" = true -> m = "".
Proof. destruct m; [reflexivity | discriminate]. Qed.

Lemma prefix_append (m s : string) : prefix m (m ++ s) = true.
Proof.
  induction m as [| c m IH]; simpl.
  - now destruct s.
  - destruct (ascii_dec c c); [exact IH | contradiction].
Qed.

(** A prefix of [a ++ b] is a prefix of [a] or runs over all of [a]. *)
Lemma prefix_app_cases (a : string) :
  forall m b : string,
    prefix m (a ++ b) = true ->
    prefix m a = true \/
    exists m2 : string, m = a ++ m2 /\ m2 <> "" /\ prefix m2 b = true.
Proof.
  induction a as [| x a IH]; intros m b H.
  - destruct m as [| y m].
    + now left.
    + right. exists (String y m). repeat split; [discriminate | exact H].
  - destruct m as [| y m]; [now left |].
    simpl in H. destruct (ascii_dec y x) as [-> | Hne]; [| discriminate].
    destruct (IH m b H) as [Hp | (m2 & -> & Hm2 & Hp)].
    + left. simpl. destruct (ascii_dec x x); [exact Hp | contradiction].
    + right. exists m2. repeat split; assumption.
Qed.

Lemma includes_of_prefix (m s : string) :
  prefix m s = true -> includes m s = true.
Proof.
  intros H. rewrite includes_unfold, H. reflexivity.
Qed.

Lemma includes_cons (m s : string) (c : ascii) :
  includes m s = true -> includes m (String c s) = true.
Proof.
  intros H. rewrite includes_unfold, H. apply orb_true_r.
Qed.

Lemma includes_intro (a m b : string) : includes m (a ++ m ++ b) = true.
Proof.
  induction a as [| x a IH]; simpl append.
  - apply includes_of_prefix, prefix_append.
  - now apply includes_cons.
Qed.

Lemma prefix_inv (m : string) :
  forall s : string, prefix m s = true -> exists r : string, s = m ++ r.
Proof.
  induction m as [| c m IH]; intros s H.
  - now exists s.
  - destruct s as [| x s]; [discriminate |]. simpl in H.
    destruct (ascii_dec c x) as [-> | Hne]; [| discriminate].
    destruct (IH s H) as [r ->]. now exists r.
Qed.

Lemma includes_inv (m : string) :
  forall s : string,
    includes m s = true -> exists a b : string, s = a ++ m ++ b.
Proof.
  induction s as [| x s IH]; intros H; rewrite includes_unfold in H;
    apply orb_true_iff in H; destruct H as [H | H]; try discriminate.
  - destruct (prefix_inv m _ H) as [r E]. now exists "", r.
  - destruct (prefix_inv m _ H) as [r E]. now exists "", r.
  - destruct (IH H) as (a & b & ->). now exists (String x a), b.
Qed.

(** An occurrence of [m] in [a ++ b] lies in [a], lies in [b], or starts
    in [a] and ends in [b]. *)
Lemma includes_app_split (m b : string) :
  forall a : string,
    includes m (a ++ b) = true ->
    includes m a = true \/ includes m b = true \/
    exists m1 m2 a0 : string,
      m = m1 ++ m2 /\ m1 <> "" /\ m2 <> "" /\ a = a0 ++ m1 /\
      prefix m2 b = true.
Proof.
  induction a as [| x a IH]; intros H.
  - now (right; left).
  - rewrite includes_unfold in H. apply orb_true_iff in H.
    destruct H as [H | H].
    + destruct (prefix_app_cases (String x a) m b H)
        as [Hp | (m2 & -> & Hm2 & Hp)].
      * left. now apply includes_of_prefix.
      * right; right. exists (String x a), m2, "".
        repeat split; [discriminate | assumption | assumption].
    + destruct (IH H) as [Ha | [Hb | (m1 & m2 & a0 & -> & H1 & H2 & -> & Hp)]].
      * left. now apply includes_cons.
      * now (right; left).
      * right; right. exists m1, m2, (String x a0).
        repeat split; assumption.
Qed.

Lemma length_pos_of_nonempty (s : string) :
  s <> "" -> 0 < String.length s.
Proof.
  destruct s; [contradiction | simpl; lia].
Qed.

Lemma no_suffix_starts_head (m l : string) :
  l <> "" -> no_suffix_starts m l = true -> proper_prefix l m = false.
Proof.
  destruct l as [| c l]; [contradiction |]. intros _ H. simpl in H.
  apply andb_true_iff in H. destruct H as [H _].
  now apply negb_true_iff in H.
Qed.

Lemma no_suffix_starts_sound (m : string) :
  forall a0 l m1 m2 : string,
    no_suffix_starts m l = true ->
    l = a0 ++ m1 -> m1 <> "" -> m = m1 ++ m2 -> m2 <> "" -> False.
Proof.
  induction a0 as [| x a0 IH]; intros l m1 m2 Hsafe -> Hm1 -> Hm2.
  - change ("" ++ m1) with m1 in Hsafe.
    apply no_suffix_starts_head in Hsafe; [| exact Hm1].
    unfold proper_prefix in Hsafe.
    rewrite prefix_append, length_append in Hsafe.
    apply length_pos_of_nonempty in Hm2.
    assert (Hlt : (String.length m1 <?
                   String.length m1 + String.length m2)%nat = true)
      by (apply Nat.ltb_lt; lia).
    rewrite Hlt in Hsafe. discriminate.
  - simpl in Hsafe. apply andb_true_iff in Hsafe. destruct Hsafe as [_ Hrest].
    exact (IH (a0 ++ m1) m1 m2 Hrest eq_refl Hm1 eq_refl Hm2).
Qed.

Lemma no_tail_in_front_sound (l : string) :
  forall m1 m m2 : string,
    no_tail_in_front m l = true ->
    m = m1 ++ m2 -> m1 <> "" -> m2 <> "" -> prefix m2 l = true -> False.
Proof.
  induction m1 as [| x m1 IH]; intros m m2 Hsafe -> Hm1 Hm2 Hp;
    [contradiction |].
  simpl in Hsafe. apply andb_true_iff in Hsafe.
  destruct Hsafe as [Hhead Hrest].
  destruct m1 as [| y m1].
  - simpl in Hhead. destruct m2 as [| z m2]; [contradiction |].
    rewrite Hp in Hhead. discriminate.
  - exact (IH (String y m1 ++ m2) m2 Hrest eq_refl
              ltac:(discriminate) Hm2 Hp).
Qed.

(** No marker occurs in a rendered template whose literals are safe for
    it, whose substitutions do not contain it and are kept apart by
    literals. *)
Theorem render_excludes (m : string) :
  m <> "" ->
  forall t : list piece,
    subs_separated t = true ->
    lits_safe m t = true ->
    (forall s : string, In (Sub s) t -> includes m s = false) ->
    includes m (render t) = false.
Proof.
  intros Hm. induction t as [| p rest IH]; intros Hsep Hlits Hsubs.
  - destruct m; [contradiction | reflexivity].
  - simpl in Hsep, Hlits.
    apply andb_true_iff in Hsep. destruct Hsep as [Hadj Hsep].
    apply andb_true_iff in Hlits. destruct Hlits as [Hp Hlits].
    assert (Hrest : includes m (render rest) = false).
    { apply IH; auto. intros s Hs. apply Hsubs. now right. }
    destruct (includes m (render (p :: rest))) eqn:Hocc; [| reflexivity].
    exfalso. change (render (p :: rest))
      with (piece_text p ++ render rest) in Hocc.
    destruct (includes_app_split m _ _ Hocc)
      as [Hin | [Hin | (m1 & m2 & a0 & E & H1 & H2 & Ea & Hpre)]].
    + destruct p as [l | s]; simpl in Hin.
      * unfold lit_safe in Hp. rewrite Hin in Hp. discriminate.
      * rewrite (Hsubs s) in Hin; [discriminate | now left].
    + rewrite Hrest in Hin. discriminate.
    + destruct p as [l | s]; simpl in Ea.
      * unfold lit_safe in Hp. rewrite !andb_true_iff in Hp.
        destruct Hp as [[[_ Hstart] _] _].
        exact (no_suffix_starts_sound m a0 l m1 m2 Hstart Ea H1 E H2).
      * destruct rest as [| q rest].
        -- apply prefix_nil_inv in Hpre. contradiction.
        -- destruct q as [l | s']; [| discriminate].
           simpl in Hlits. apply andb_true_iff in Hlits.
           destruct Hlits as [Hl _].
           unfold lit_safe in Hl. rewrite !andb_true_iff in Hl.
           destruct Hl as [[[_ _] Hend] Hcover].
           change (render (Lit l :: rest)) with (l ++ render rest) in Hpre.
           destruct (prefix_app_cases l m2 _ Hpre)
             as [Hpl | (m3 & -> & _ & _)].
           ++ exact (no_tail_in_front_sound l m1 m m2 Hend E H1 H2 Hpl).
           ++ rewrite E, includes_intro in Hcover.
              discriminate.
Qed.

Lemma includes_app_l (m a b : string) :
  includes m a = true -> includes m (a ++ b) = true.
Proof.
  intros H. destruct (includes_inv m a H) as (x & y & ->).
  rewrite !append_assoc. apply includes_intro.
Qed.

Lemma includes_app_r (m a b : string) :
  includes m b = true -> includes m (a ++ b) = true.
Proof.
  intros H. destruct (includes_inv m b H) as (x & y & ->).
  rewrite <- append_assoc. apply includes_intro.
Qed.

Lemma has_char_app (c : ascii) (a b : string) :
  has_char c (a ++ b) = has_char c a || has_char c b.
Proof.
  induction a as [| x a IH]; simpl; [reflexivity |].
  now rewrite IH, orb_assoc.
Qed.

(** A string without a character of [m] does not contain [m]. *)
Lemma excludes_by_char (c : ascii) (m s : string) :
  has_char c m = true -> has_char c s = false -> includes m s = false.
Proof.
  intros Hm Hs. destruct (includes m s) eqn:H; [| reflexivity].
  destruct (includes_inv m s H) as (a & b & ->).
  rewrite !has_char_app, Hm, orb_true_r in Hs. discriminate.
Qed.

Lemma render_app (t u : list piece) :
  render (t ++ u) = render t ++ render u.
Proof.
  induction t as [| p t IH]; simpl; [reflexivity |].
  now rewrite IH, append_assoc.
Qed.

End OccurrenceFacts.

(** ** The text of printed numbers *)

Section NumberTextFacts.
Import JSString JSNumber Marker.

Lemma digit_char_is_digit (d : Z) :
  (0 <= d < 10)%Z -> is_digit (digit_char d) = true.
Proof.
  intros H.
  assert (E : (d = 0 \/ d = 1 \/ d = 2 \/ d = 3 \/ d = 4 \/
               d = 5 \/ d = 6 \/ d = 7 \/ d = 8 \/ d = 9)%Z) by lia.
  repeat (destruct E as [-> | E]; [reflexivity |]). subst d. reflexivity.
Qed.

Lemma digit_char_differs (d : Z) (c : ascii) :
  (0 <= d < 10)%Z -> is_digit c = false -> Ascii.eqb (digit_char d) c = false.
Proof.
  intros Hd Hc. destruct (Ascii.eqb_spec (digit_char d) c) as [E | _];
    [| reflexivity].
  rewrite <- E, digit_char_is_digit in Hc by assumption. discriminate.
Qed.

(** The decimal digits of a number are digits. *)
Lemma digits_fuel_only_digits (c : ascii) (fuel : nat) :
  is_digit c = false ->
  forall (n : Z) (acc : string),
    has_char c acc = false ->
    has_char c (digits_fuel fuel n acc) = false.
Proof.
  intros Hc. induction fuel as [| fuel IH]; intros n acc Hacc;
    cbn [digits_fuel]; [exact Hacc |].
  assert (Hstep : has_char c (String (digit_char (n mod 10)) acc) = false).
  { cbn [has_char]. rewrite Hacc, digit_char_differs; auto.
    apply Z.mod_pos_bound. lia. }
  destruct (n <? 10)%Z; [exact Hstep | now apply IH].
Qed.

Lemma digits_only_digits (c : ascii) (n : Z) :
  is_digit c = false -> has_char c (digits n) = false.
Proof. intros Hc. unfold digits. now apply digits_fuel_only_digits. Qed.

Lemma digits_no_star (n : Z) : has_char "*" (digits n) = false.
Proof. now apply digits_only_digits. Qed.


Lemma repeat0_no_star (n : nat) : has_char "*" (repeat0 n) = false.
Proof. induction n as [| n IH]; simpl; [reflexivity | exact IH]. Qed.

Lemma substring_no_star (s : string) :
  forall n k : nat,
    has_char "*" s = false -> has_char "*" (substring n k s) = false.
Proof.
  induction s as [| c s IH]; intros n k H.
  - destruct n, k; reflexivity.
  - simpl in H. apply orb_false_iff in H. destruct H as [Hc Hs].
    destruct n as [| n]; [destruct k as [| k] |]; simpl.
    + reflexivity.
    + rewrite Hc. now apply IH.
    + now apply IH.
Qed.

Ltac no_star :=
  repeat (rewrite has_char_app);
  repeat (rewrite digits_no_star || rewrite repeat0_no_star ||
          rewrite (substring_no_star _ _ _ (digits_no_star _)));
  reflexivity.

Lemma format_shortest_no_star (s n : Z) :
  has_char "*" (format_shortest s n) = false.
Proof.
  unfold format_shortest.
  repeat match goal with
         | |- context [if ?b then _ else _] => destruct b
         end; no_star.
Qed.

Lemma toString_no_star (x : number) : has_char "*" (toString x) = false.
Proof.
  unfold toString. destruct (Prim2SF x) as [sg | sg | | sg m e].
  - reflexivity.
  - destruct sg; reflexivity.
  - reflexivity.
  - destruct (shortest m e) as [s n].
    rewrite has_char_app, format_shortest_no_star. now destruct sg.
Qed.

Lemma toFixed1_no_star (x : number) : has_char "*" (toFixed1 x) = false.
Proof.
  unfold toFixed1. destruct (Prim2SF x) as [sg | sg | | sg m e].
  - reflexivity.
  - destruct sg; reflexivity.
  - reflexivity.
  - destruct (Qle_bool (pow10 21) (exact m e)).
    + destruct (shortest m e) as [s n].
      rewrite has_char_app, format_shortest_no_star. now destruct sg.
    + rewrite !has_char_app, !digits_no_star. now destruct sg.
Qed.


End NumberTextFacts.

(** ** Running programs *)

Section RunFacts.
Import Effect.
Context {A B : Type}.

Lemma run_bind (t : Transport) (p : Prog A) (f : A -> Prog B) :
  forall log,
    run t log (bind p f) =
    match run t log p with
    | (Returned a, log') => run t log' (f a)
    | (Thrown m, log') => (Thrown m, log')
    end.
Proof.
  induction p as [a | m | c k IH]; intros log; simpl; auto.
Qed.

Lemma run_try_catch (t : Transport) (p : Prog A) (h : string -> Prog A) :
  forall log,
    run t log (try_catch p h) =
    match run t log p with
    | (Returned a, log') => (Returned a, log')
    | (Thrown m, log') => run t log' (h m)
    end.
Proof.
  induction p as [a | m | c k IH]; intros log; simpl; auto.
Qed.

(** The calls logged before a program runs stay in the log. *)
Lemma run_log_extends (t : Transport) (p : Prog A) :
  forall log, exists more, snd (run t log p) = (log ++ more)%list.
Proof.
  induction p as [a | m | c k IH]; intros log; simpl.
  - exists []. now rewrite app_nil_r.
  - exists []. now rewrite app_nil_r.
  - destruct (IH (t (log ++ [c])%list) (log ++ [c])%list) as [more E].
    exists (c :: more). rewrite E. now rewrite <- app_assoc.
Qed.

Lemma run_fetch (t : Transport) (c : Call) (log : list Call) :
  run t log (fetch c) =
  match t (log ++ [c])%list with
  | Rejected m => (Thrown m, (log ++ [c])%list)
  | Resolved r => (Returned r, (log ++ [c])%list)
  end.
Proof.
  unfold fetch. simpl. destruct (t (log ++ [c])%list); reflexivity.
Qed.

End RunFacts.

(** ** The generation calls of the handlers *)

Section HandlerFacts.
Import JSON Effect Server.

Variable cfg : Config.
Hypothesis key_present : key_missing cfg = false.

Lemma first_candidate_text_not_null (j : json) :
  j <> JNull -> first_candidate_text j = Ret (candidate_text j).
Proof.
  destruct j; intros H; try reflexivity. now elim H.
Qed.

(** A result with a candidate text is not [null]. *)
Lemma candidate_text_some_not_null (j v : json) :
  candidate_text j = Some v -> j <> JNull.
Proof.
  intros H E. subst j. discriminate H.
Qed.

(** The core assessment when the endpoint answers with a success status
    and a body that parses to something other than [null]. *)
Lemma run_generateCoreAssessment_ok (t : Transport) (sd : ScanData)
  (parts : list Part) (log : list Call) (r : Response) (j : json) :
  let c := generation_call cfg (parts ++ [TextPart (core_query sd parts)])%list in
  t (log ++ [c])%list = Resolved r ->
  ok r = true ->
  bodyJson r = inl j ->
  j <> JNull ->
  run t log (generateCoreAssessment cfg sd parts) =
  (Returned (or_else (candidate_text j) assessment_placeholder),
   (log ++ [c])%list).
Proof.
  intros c Ht Hok Hj Hnn. unfold generateCoreAssessment.
  rewrite key_present, run_bind, run_fetch. fold c. rewrite Ht, Hok.
  cbn [negb]. rewrite run_bind. unfold response_json. rewrite Hj.
  cbn [run]. rewrite run_bind, (first_candidate_text_not_null j Hnn).
  reflexivity.
Qed.

(** The core assessment when the endpoint answers with a status outside
    200-299. *)
Lemma run_generateCoreAssessment_not_ok (t : Transport) (sd : ScanData)
  (parts : list Part) (log : list Call) (r : Response) :
  let c := generation_call cfg (parts ++ [TextPart (core_query sd parts)])%list in
  t (log ++ [c])%list = Resolved r ->
  ok r = false ->
  run t log (generateCoreAssessment cfg sd parts) =
  (Thrown ("Google API Error (Core Assessment): " ++
           JSString.of_nat (status r) ++ " - " ++ bodyText r),
   (log ++ [c])%list).
Proof.
  intros c Ht Hok. unfold generateCoreAssessment.
  rewrite key_present, run_bind, run_fetch. fold c. rewrite Ht, Hok.
  reflexivity.
Qed.

(** A report whose two calls are answered with a success status and
    bodies that parse to something other than [null]: the response
    carries the two texts around the separator, status 200, after
    exactly the two calls. *)
Lemma generateReport_two_stages (t : Transport) (req : ReportRequest)
  (r1 r2 : Response) (j1 j2 : json) (coreText aiText : string) :
  t [stage1_call cfg (scanData req)] = Resolved r1 ->
  ok r1 = true ->
  bodyJson r1 = inl j1 ->
  j1 <> JNull ->
  to_string (or_else (candidate_text j1) assessment_placeholder)
    = Some coreText ->
  t [stage1_call cfg (scanData req); stage2_call cfg req coreText]
    = Resolved r2 ->
  ok r2 = true ->
  bodyJson r2 = inl j2 ->
  j2 <> JNull ->
  to_string (or_else (candidate_text j2) "") = Some aiText ->
  serve t (generateReport cfg req) =
  (Returned (res_json (text_body (JStr (coreText ++ separator ++ aiText)))),
   [stage1_call cfg (scanData req); stage2_call cfg req coreText]).
Proof.
  intros Ht1 Hok1 Hj1 Hn1 Hs1 Ht2 Hok2 Hj2 Hn2 Hs2.
  unfold serve, generateReport. rewrite key_present, run_try_catch.
  unfold generateReport_body. rewrite run_bind.
  rewrite (run_generateCoreAssessment_ok t (scanData req)
             (frame_parts (scanData req)) [] r1 j1 Ht1 Hok1 Hj1 Hn1).
  rewrite run_bind. unfold interpolate at 1. rewrite Hs1. cbn [run].
  rewrite run_bind, run_fetch.
  change ([] ++ [generation_call cfg
                   (frame_parts (scanData req) ++
                    [TextPart (core_query (scanData req)
                                 (frame_parts (scanData req)))])])%list
    with [stage1_call cfg (scanData req)].
  change ([stage1_call cfg (scanData req)] ++
          [generation_call cfg
             (frame_parts (scanData req) ++
              [TextPart (getAiQuery (scanData req) (isDeepAnalysis req)
                           coreText)])])%list
    with [stage1_call cfg (scanData req); stage2_call cfg req coreText].
  rewrite Ht2, Hok2. cbn [negb]. rewrite run_bind. unfold response_json.
  rewrite Hj2. cbn [run]. rewrite run_bind.
  rewrite (first_candidate_text_not_null j2 Hn2). cbn [run].
  rewrite run_bind. unfold interpolate. rewrite Hs2. reflexivity.
Qed.

End HandlerFacts.

(** ** The two-stage report and its failures *)

Section ReportClaims.
Import JSON Effect Server.

Lemma or_else_text (s d : string) :
  s <> "" -> or_else (Some (JStr s)) d = JStr s.
Proof.
  intros H. unfold or_else, truthy.
  destruct (String.eqb_spec s ""); [contradiction | reflexivity].
Qed.

(** A report against the echoing client. *)
Lemma generateReport_echo (cfg : Config) (req : ReportRequest)
  (core final : string) :
  key_missing cfg = false ->
  core <> "" -> final <> "" ->
  serve (Mock.echo [core; final]) (generateReport cfg req) =
  (Returned (res_json (text_body (JStr (core ++ separator ++ final)))),
   [stage1_call cfg (scanData req); stage2_call cfg req core]).
Proof.
  intros Hkey Hcore Hfinal.
  apply (generateReport_two_stages cfg Hkey _ req
           {| status := 200; bodyText := "";
              bodyJson := inl (Mock.generation_result (JStr core)) |}
           {| status := 200; bodyText := "";
              bodyJson := inl (Mock.generation_result (JStr final)) |}
           (Mock.generation_result (JStr core))
           (Mock.generation_result (JStr final)));
    try reflexivity; try discriminate.
  - change (candidate_text (Mock.generation_result (JStr core)))
      with (Some (JStr core)).
    rewrite or_else_text by assumption. reflexivity.
  - change (candidate_text (Mock.generation_result (JStr final)))
      with (Some (JStr final)).
    rewrite or_else_text by assumption. reflexivity.
Qed.



(** C3: while the API key is absent, both handlers answer HTTP 500 with
    a JSON error body and issue no call to the generation endpoint. *)
Theorem C3_missing_key_500_without_calls :
  forall (cfg : Config) (t : Transport),
    key_missing cfg = true ->
    (forall req : ReportRequest,
        serve t (generateReport cfg req) =
        (Returned {| httpStatus := 500;
                     httpBody := JObj [("error",
                       JStr "Server API Key is not configured.")] |},
         []))
    /\
    (forall req : ChatRequest,
        serve t (handleChat cfg req) =
        (Returned {| httpStatus := 500;
                     httpBody := JObj [("error",
                       JStr "Server API Key is not configured.")] |},
         [])).
Proof.
  intros cfg t Hkey. split; intros req.
  - unfold serve, generateReport. rewrite Hkey. reflexivity.
  - unfold serve, handleChat. rewrite Hkey. reflexivity.
Qed.

Lemma C3_missing_key_witness :
  key_missing Sample.no_key = true /\
  serve (Mock.echo ["a"; "b"])
    (generateReport Sample.no_key (Sample.report true Sample.three_frames)) =
  (Returned {| httpStatus := 500;
               httpBody := JObj [("error",
                 JStr "Server API Key is not configured.")] |}, []) /\
  serve (Mock.echo ["a"; "b"]) (handleChat Sample.no_key Sample.chat) =
  (Returned {| httpStatus := 500;
               httpBody := JObj [("error",
                 JStr "Server API Key is not configured.")] |}, []).
Proof.
  split; [reflexivity |].
  split.
  - apply (proj1 (C3_missing_key_500_without_calls Sample.no_key
                    (Mock.echo ["a"; "b"]) eq_refl)).
  - apply (proj2 (C3_missing_key_500_without_calls Sample.no_key
                    (Mock.echo ["a"; "b"]) eq_refl)).
Defined.

(** C4: when the Stage-1 call of a report is answered with a status
    outside 200-299, the Stage-1 call is the only call issued (no Stage-2
    call follows) and the handler answers HTTP 500 with a JSON error
    body built from the status and the response text; no Stage-1-only
    result is returned as a success. *)
Theorem C4_stage1_failure_stops_the_report :
  forall (cfg : Config) (req : ReportRequest) (t : Transport)
         (r1 : Response),
    key_missing cfg = false ->
    t [stage1_call cfg (scanData req)] = Resolved r1 ->
    ok r1 = false ->
    serve t (generateReport cfg req) =
    (Returned {| httpStatus := 500;
                 httpBody := JObj [("error",
                   JStr ("Google API Error (Core Assessment): " ++
                         JSString.of_nat (status r1) ++ " - " ++
                         bodyText r1))] |},
     [stage1_call cfg (scanData req)]).
Proof.
  intros cfg req t r1 Hkey Ht Hok.
  unfold serve, generateReport. rewrite Hkey, run_try_catch.
  unfold generateReport_body. rewrite run_bind.
  rewrite (run_generateCoreAssessment_not_ok cfg Hkey t (scanData req)
             (frame_parts (scanData req)) [] r1 Ht Hok).
  reflexivity.
Qed.

Lemma C4_stage1_failure_witness :
  serve (Mock.scripted [Mock.respond 503 "overloaded" (inr "bad json");
                        Mock.respond 200 ""
                          (inl (Mock.generation_result (JStr "never")))])
    (generateReport Sample.cfg (Sample.report false Sample.three_frames)) =
  (Returned {| httpStatus := 500;
               httpBody := JObj [("error",
                 JStr "Google API Error (Core Assessment): 503 - overloaded")] |},
   [stage1_call Sample.cfg (Sample.scan Sample.three_frames)]).
Proof.
  apply (C4_stage1_failure_stops_the_report Sample.cfg
           (Sample.report false Sample.three_frames)
           (Mock.scripted [Mock.respond 503 "overloaded" (inr "bad json");
                           Mock.respond 200 ""
                             (inl (Mock.generation_result (JStr "never")))])
           {| status := 503; bodyText := "overloaded";
              bodyJson := inr "bad json" |});
    reflexivity.
Defined.

(** The chat turn when the endpoint answers with a success status and a
    body that parses to something other than [null]. *)
Lemma handleChat_ok (cfg : Config) (t : Transport) (req : ChatRequest)
  (r : Response) (j : json) :
  key_missing cfg = false ->
  t [chat_call cfg req] = Resolved r ->
  ok r = true ->
  bodyJson r = inl j ->
  j <> JNull ->
  serve t (handleChat cfg req) =
  (Returned (res_json (text_body (or_else (candidate_text j) chat_fallback))),
   [chat_call cfg req]).
Proof.
  intros Hkey Ht Hok Hj Hnn.
  unfold serve, handleChat. rewrite Hkey, run_try_catch.
  unfold handleChat_body. rewrite run_bind, run_fetch.
  change ([] ++ [ {| url := apiUrl cfg;
                     body := {| contents := History (chatHistory req);
                                safetySettings := None;
                                systemInstruction :=
                                  Some (chatSystemPrompt
                                          (chatContextSummary req)) |} |} ])%list
    with [chat_call cfg req].
  rewrite Ht, Hok. cbn [negb]. rewrite run_bind. unfold response_json.
  rewrite Hj. cbn [run]. rewrite run_bind.
  rewrite (first_candidate_text_not_null j Hnn). reflexivity.
Qed.

(** C2, as stated, fails in two places.  A body that parses to [null]
    lacks every expected field, yet reading [candidates] from it throws
    and the chat handler answers HTTP 500; and on the report path the
    text extracted from a Stage-1 body without the fields is the
    placeholder assessment, not the empty string. *)
Lemma C2_malformed_response_counterexample :
  candidate_text JNull = None /\
  serve (Mock.scripted [Mock.respond 200 "null" (inl JNull)])
    (handleChat Sample.cfg Sample.chat) =
  (Returned {| httpStatus := 500;
               httpBody := JObj [("error",
                 JStr "Cannot read properties of null (reading 'candidates')")] |},
   [chat_call Sample.cfg Sample.chat]) /\
  candidate_text (JObj []) = None /\
  serve (Mock.scripted
           [Mock.respond 200 "{}" (inl (JObj []));
            Mock.respond 200 ""
              (inl (Mock.generation_result (JStr "FinalMock")))])
    (generateReport Sample.cfg (Sample.report false Sample.three_frames)) =
  (Returned {| httpStatus := 200;
               httpBody := JObj [("text",
                 JStr (assessment_placeholder ++ separator ++
                       "FinalMock"))] |},
   [stage1_call Sample.cfg (Sample.scan Sample.three_frames);
    stage2_call Sample.cfg (Sample.report false Sample.three_frames)
      assessment_placeholder]) /\
  or_else (candidate_text (JObj [])) assessment_placeholder =
    JStr ("**Core Vastu Assessment (Defects Found)**" ++ JSString.nl ++
          "- Assessment failed to generate. Please rescan.") /\
  or_else (candidate_text (JObj [])) assessment_placeholder <> JStr "".
Proof.
  split; [reflexivity |].
  split; [reflexivity |].
  split; [reflexivity |].
  split; [| split; [reflexivity | discriminate]].
  apply (generateReport_two_stages Sample.cfg eq_refl _
           (Sample.report false Sample.three_frames)
           {| status := 200; bodyText := "{}"; bodyJson := inl (JObj []) |}
           {| status := 200; bodyText := "";
              bodyJson := inl (Mock.generation_result (JStr "FinalMock")) |}
           (JObj []) (Mock.generation_result (JStr "FinalMock")));
    try reflexivity; discriminate.
Qed.

(** C2 (amended): an upstream response with a success status whose body
    parses to a JSON value other than [null] and lacks the
    candidates/content/parts/text path is not fatal.  The chat handler
    answers HTTP 200 with the fixed fallback sentence.  On the report
    path such a Stage-2 response contributes the empty string after the
    separator, and such a Stage-1 response makes the placeholder
    assessment the core assessment; the report is HTTP 200 in both
    cases when the other stage succeeds too. *)
Theorem C2_malformed_response_is_not_fatal :
  forall cfg : Config,
    key_missing cfg = false ->
    (forall (t : Transport) (req : ChatRequest) (r : Response) (j : json),
        t [chat_call cfg req] = Resolved r ->
        ok r = true -> bodyJson r = inl j ->
        j <> JNull -> candidate_text j = None ->
        serve t (handleChat cfg req) =
        (Returned {| httpStatus := 200;
                     httpBody := JObj [("text",
                       JStr "Sorry, I couldn't process that query.")] |},
         [chat_call cfg req]))
    /\
    (forall (t : Transport) (req : ReportRequest) (r1 r2 : Response)
            (j1 j2 : json) (coreText : string),
        t [stage1_call cfg (scanData req)] = Resolved r1 ->
        ok r1 = true -> bodyJson r1 = inl j1 -> j1 <> JNull ->
        to_string (or_else (candidate_text j1) assessment_placeholder)
          = Some coreText ->
        t [stage1_call cfg (scanData req); stage2_call cfg req coreText]
          = Resolved r2 ->
        ok r2 = true -> bodyJson r2 = inl j2 ->
        j2 <> JNull -> candidate_text j2 = None ->
        serve t (generateReport cfg req) =
        (Returned {| httpStatus := 200;
                     httpBody := JObj [("text",
                       JStr (coreText ++ separator ++ ""))] |},
         [stage1_call cfg (scanData req); stage2_call cfg req coreText]))
    /\
    (forall (t : Transport) (req : ReportRequest) (r1 r2 : Response)
            (j1 j2 : json) (aiText : string),
        t [stage1_call cfg (scanData req)] = Resolved r1 ->
        ok r1 = true -> bodyJson r1 = inl j1 ->
        j1 <> JNull -> candidate_text j1 = None ->
        t [stage1_call cfg (scanData req);
           stage2_call cfg req assessment_placeholder] = Resolved r2 ->
        ok r2 = true -> bodyJson r2 = inl j2 -> j2 <> JNull ->
        to_string (or_else (candidate_text j2) "") = Some aiText ->
        serve t (generateReport cfg req) =
        (Returned {| httpStatus := 200;
                     httpBody := JObj [("text",
                       JStr (assessment_placeholder ++ separator ++
                             aiText))] |},
         [stage1_call cfg (scanData req);
          stage2_call cfg req assessment_placeholder])).
Proof.
  intros cfg Hkey. repeat split.
  - intros t req r j Ht Hok Hj Hnn Hlack.
    rewrite (handleChat_ok cfg t req r j Hkey Ht Hok Hj Hnn), Hlack.
    reflexivity.
  - intros t req r1 r2 j1 j2 coreText Ht1 Hok1 Hj1 Hn1 Hs1
           Ht2 Hok2 Hj2 Hn2 Hlack.
    apply (generateReport_two_stages cfg Hkey t req r1 r2 j1 j2); auto.
    rewrite Hlack. reflexivity.
  - intros t req r1 r2 j1 j2 aiText Ht1 Hok1 Hj1 Hn1 Hlack
           Ht2 Hok2 Hj2 Hn2 Hs2.
    apply (generateReport_two_stages cfg Hkey t req r1 r2 j1 j2); auto.
    rewrite Hlack. reflexivity.
Qed.

Lemma C2_malformed_response_witness :
  serve (Mock.scripted [Mock.respond 200 "{}" (inl (JObj []))])
    (handleChat Sample.cfg Sample.chat) =
  (Returned {| httpStatus := 200;
               httpBody := JObj [("text",
                 JStr "Sorry, I couldn't process that query.")] |},
   [chat_call Sample.cfg Sample.chat]) /\
  serve (Mock.scripted
           [Mock.respond 200 ""
              (inl (Mock.generation_result (JStr "CoreAssessmentMock")));
            Mock.respond 200 "{}" (inl (JObj []))])
    (generateReport Sample.cfg (Sample.report true Sample.three_frames)) =
  (Returned {| httpStatus := 200;
               httpBody := JObj [("text",
                 JStr ("CoreAssessmentMock" ++ separator ++ ""))] |},
   [stage1_call Sample.cfg (Sample.scan Sample.three_frames);
    stage2_call Sample.cfg (Sample.report true Sample.three_frames)
      "CoreAssessmentMock"]) /\
  serve (Mock.scripted
           [Mock.respond 200 "{}" (inl (JObj []));
            Mock.respond 200 ""
              (inl (Mock.generation_result (JStr "FinalMock")))])
    (generateReport Sample.cfg (Sample.report true Sample.three_frames)) =
  (Returned {| httpStatus := 200;
               httpBody := JObj [("text",
                 JStr (assessment_placeholder ++ separator ++
                       "FinalMock"))] |},
   [stage1_call Sample.cfg (Sample.scan Sample.three_frames);
    stage2_call Sample.cfg (Sample.report true Sample.three_frames)
      assessment_placeholder]).
Proof.
  destruct (C2_malformed_response_is_not_fatal Sample.cfg eq_refl)
    as [Chat [Stage2 Stage1]].
  split; [| split].
  - apply (Chat _ Sample.chat
             {| status := 200; bodyText := "{}"; bodyJson := inl (JObj []) |}
             (JObj []));
      try reflexivity; discriminate.
  - apply (Stage2 _ (Sample.report true Sample.three_frames)
             {| status := 200; bodyText := "";
                bodyJson := inl (Mock.generation_result
                                   (JStr "CoreAssessmentMock")) |}
             {| status := 200; bodyText := "{}"; bodyJson := inl (JObj []) |}
             (Mock.generation_result (JStr "CoreAssessmentMock"))
             (JObj []));
      try reflexivity; discriminate.
  - apply (Stage1 _ (Sample.report true Sample.three_frames)
             {| status := 200; bodyText := "{}"; bodyJson := inl (JObj []) |}
             {| status := 200; bodyText := "";
                bodyJson := inl (Mock.generation_result
                                   (JStr "FinalMock")) |}
             (JObj []) (Mock.generation_result (JStr "FinalMock")));
      try reflexivity; discriminate.
Defined.

End ReportClaims.

(** ** The part list of a report *)

Section PartListClaims.
Import JSString JSON Effect Server.

Lemma push_frames_interleaved (frames : list Frame) :
  forall (index : nat) (parts : list Part),
    push_frames frames index parts =
    (parts ++ Spec.interleaved frames index)%list.
Proof.
  induction frames as [| frame rest IH]; intros index parts; simpl.
  - now rewrite app_nil_r.
  - rewrite IH, <- app_assoc. reflexivity.
Qed.

Lemma frame_parts_interleaved (sd : ScanData) :
  frame_parts sd = Spec.interleaved (capturedFrames sd) 0.
Proof.
  unfold frame_parts. now rewrite push_frames_interleaved.
Qed.

Lemma interleaved_length (frames : list Frame) :
  forall index,
    List.length (Spec.interleaved frames index) = 2 * List.length frames.
Proof.
  induction frames as [| frame rest IH]; intros index; simpl.
  - reflexivity.
  - rewrite IH. lia.
Qed.



(** With the key configured, the first call of a report is the Stage-1
    call, whatever the endpoint answers. *)
Lemma generateReport_first_call (cfg : Config) (req : ReportRequest)
  (t : Transport) :
  key_missing cfg = false ->
  exists rest,
    snd (serve t (generateReport cfg req)) =
    stage1_call cfg (scanData req) :: rest.
Proof.
  intros Hkey. unfold serve, generateReport, generateReport_body,
    generateCoreAssessment. rewrite Hkey.
  cbn [bind try_catch fetch run app].
  match goal with
  | |- exists rest, snd (run t ?log ?p) = _ =>
      destruct (run_log_extends t p log) as [more E]
  end.
  exists more. exact E.
Qed.


Lemma frame_parts_length (sd : ScanData) :
  List.length (frame_parts sd) = 2 * List.length (capturedFrames sd).
Proof.
  rewrite frame_parts_interleaved. apply interleaved_length.
Qed.


(** C9: the segment count written into the Stage-1 instruction is the
    length of the part list minus one; the list holds one image and one
    marker per frame and no instruction yet, so for N frames the count
    is 2N - 1, which exceeds N as soon as N > 1. *)
Theorem C9_segment_count_is_twice_the_frames_minus_one :
  forall (cfg : Config) (req : ReportRequest) (t : Transport),
    key_missing cfg = false ->
    let sd := scanData req in
    let N := Z.of_nat (List.length (capturedFrames sd)) in
    List.length (frame_parts sd) = 2 * List.length (capturedFrames sd) /\
    (exists rest : list Call,
        snd (serve t (generateReport cfg req)) =
        generation_call cfg
          (frame_parts sd ++
           [TextPart
              (core_query_0 ++ JSString.of_Z (2 * N - 1) ++
               core_query_1 ++ currentRoomTag sd ++
               core_query_2 ++ roomLocationInHouse sd ++
               core_query_3 ++ holisticIssues sd ++
               core_query_4)])%list :: rest) /\
    (exists pre post : string,
        core_query_0 = pre ++ "Analyze the provided " /\
        core_query_1 = " visual segments " ++ post) /\
    ((1 < N)%Z -> (N < 2 * N - 1)%Z).
Proof.
  intros cfg req t Hkey sd N.
  split; [apply frame_parts_length |].
  split; [| split].
  - destruct (generateReport_first_call cfg req t Hkey) as [rest Hcalls].
    exists rest. rewrite Hcalls. unfold stage1_call, core_query.
    fold sd. rewrite frame_parts_length.
    cbn [render fold_right piece_text]. rewrite append_nil_r.
    replace (Z.of_nat (2 * List.length (capturedFrames sd)) - 1)%Z
      with (2 * N - 1)%Z by (unfold N; lia).
    reflexivity.
  - exists (JSString.nl ++
            "        CRITICAL INSTRUCTION: You are a Vastu Analyst AI. "),
           (JSString.nl ++
            "        and the following room context: Room: ").
    split; reflexivity.
  - lia.
Qed.

Lemma C9_segment_count_witness :
  exists rest : list Call,
    snd (serve (Mock.echo ["CoreAssessmentMock"; "FinalMock"])
           (generateReport Sample.cfg
              (Sample.report false Sample.three_frames))) =
    generation_call Sample.cfg
      (frame_parts (Sample.scan Sample.three_frames) ++
       [TextPart
          (core_query_0 ++ "5" ++
           core_query_1 ++ "Kitchen" ++
           core_query_2 ++ "South-East" ++
           core_query_3 ++ "Poor sleep" ++
           core_query_4)])%list :: rest.
Proof.
  exact (proj1 (proj2
           (C9_segment_count_is_twice_the_frames_minus_one Sample.cfg
              (Sample.report false Sample.three_frames)
              (Mock.echo ["CoreAssessmentMock"; "FinalMock"]) eq_refl))).
Defined.

End PartListClaims.

(** ** The average heading and the arithmetic mean *)

Section MeanFacts.
Local Open Scope Q_scope.







End MeanFacts.

(** ** The scan summary of the final prompt *)

Section ScanSummaryClaims.
Import JSString JSON Effect Server.

Lemma filter_filter {X : Type} (f g : X -> bool) (l : list X) :
  filter f (filter g l) = filter (fun x => g x && f x) l.
Proof.
  induction l as [| x l IH]; simpl; [reflexivity |].
  destruct (g x); simpl; [destruct (f x) |]; now rewrite IH.
Qed.

(** Adding the elements of [l] to a set whose elements are [acc] appends
    the first occurrences of the elements that [acc] lacks. *)
Lemma fold_set_add (l : list string) :
  forall acc : list string,
    fold_left set_add l acc =
    (acc ++ filter (Spec.outside acc) (Spec.first_occurrences l))%list.
Proof.
  induction l as [| x rest IH]; intros acc; simpl.
  - now rewrite app_nil_r.
  - rewrite IH. unfold set_add, Spec.outside at 2.
    destruct (existsb (String.eqb x) acc) eqn:Hx; simpl.
    + f_equal. rewrite filter_filter. apply filter_ext. intros y.
      unfold Spec.outside. destruct (String.eqb_spec y x) as [-> | _]; simpl.
      * now rewrite Hx.
      * reflexivity.
    + rewrite <- app_assoc. simpl. do 2 f_equal.
      rewrite filter_filter. apply filter_ext. intros y.
      unfold Spec.outside. rewrite existsb_app. simpl.
      rewrite orb_false_r, negb_orb. apply andb_comm.
Qed.

Lemma set_of_first_occurrences (l : list string) :
  set_of l = Spec.first_occurrences l.
Proof.
  unfold set_of. rewrite fold_set_add. simpl.
  apply forallb_filter_id. apply forallb_forall. reflexivity.
Qed.

Lemma first_occurrences_In (l : list string) (z : string) :
  In z (Spec.first_occurrences l) <-> In z l.
Proof.
  induction l as [| x rest IH]; simpl; [tauto |].
  rewrite filter_In, IH. split.
  - intros [H | [H _]]; auto.
  - intros [H | H]; auto.
    destruct (String.eqb_spec z x) as [-> | Hne]; auto.
Qed.

Lemma first_occurrences_NoDup (l : list string) :
  NoDup (Spec.first_occurrences l).
Proof.
  induction l as [| x rest IH]; simpl; constructor.
  - rewrite filter_In. intros [_ H].
    now rewrite String.eqb_refl in H.
  - now apply NoDup_filter.
Qed.

Lemma StronglySorted_map_filter {X : Type} (f : X -> nat) (g : X -> bool)
  (l : list X) :
  StronglySorted lt (map f l) -> StronglySorted lt (map f (filter g l)).
Proof.
  induction l as [| x l IH]; intros H; simpl; [constructor |].
  simpl in H. apply StronglySorted_inv in H. destruct H as [Hl Hx].
  destruct (g x); simpl; [| now apply IH].
  constructor; [now apply IH |].
  rewrite Forall_forall in *. intros n Hn. apply Hx.
  rewrite in_map_iff in *. destruct Hn as (y & <- & Hy).
  exists y. split; [reflexivity |]. now apply filter_In in Hy.
Qed.

Lemma StronglySorted_map_S (l : list nat) :
  StronglySorted lt l -> StronglySorted lt (map S l).
Proof.
  induction 1 as [| n l Hl IH Hn]; simpl; constructor; auto.
  rewrite Forall_forall in *. intros k Hk.
  rewrite in_map_iff in Hk. destruct Hk as (j & <- & Hj).
  apply -> Nat.succ_lt_mono. now apply Hn.
Qed.

(** The first occurrences are listed by increasing position of first
    appearance. *)
Lemma first_occurrences_sorted (l : list string) :
  StronglySorted lt
    (map (fun z => Spec.first_index z l) (Spec.first_occurrences l)).
Proof.
  induction l as [| x rest IH]; simpl; [constructor |].
  rewrite String.eqb_refl.
  assert (E : map (fun z => if String.eqb x z then 0
                            else S (Spec.first_index z rest))
                (filter (fun y => negb (String.eqb y x))
                   (Spec.first_occurrences rest)) =
              map S (map (fun z => Spec.first_index z rest)
                       (filter (fun y => negb (String.eqb y x))
                          (Spec.first_occurrences rest)))).
  { rewrite map_map. apply map_ext_in. intros z Hz.
    apply filter_In in Hz. destruct Hz as [_ Hz].
    rewrite String.eqb_sym. apply negb_true_iff in Hz. now rewrite Hz. }
  rewrite E. constructor.
  - apply StronglySorted_map_S. now apply StronglySorted_map_filter.
  - rewrite Forall_forall. intros n Hn. rewrite in_map_iff in Hn.
    destruct Hn as (k & <- & _). lia.
Qed.

Lemma fold_headings (frames : list Frame) :
  forall start : JSNumber.number,
    fold_left (fun sum frame => (sum + heading frame)%float) frames start =
    fold_left PrimFloat.add (map heading frames) start.
Proof.
  induction frames as [| frame rest IH]; intros start; simpl;
    [reflexivity | apply IH].
Qed.

(** The average depends on the headings only. *)
Lemma avgHeading_headings (sd : ScanData) :
  avgHeading sd =
  (fold_left PrimFloat.add (map heading (capturedFrames sd)) 0 /
   JSNumber.of_nat (List.length (map heading (capturedFrames sd))))%float.
Proof.
  unfold avgHeading. now rewrite fold_headings, length_map.
Qed.

(** The line of the final prompt that reports the scan. *)
Lemma getAiQuery_scan_line (sd : ScanData) (isDeep : bool)
  (coreAssessment : string) :
  exists pre post : string,
    getAiQuery sd isDeep coreAssessment =
    pre ++ ("- Scan Data: Average Heading: " ++
            JSNumber.toFixed1 (avgHeading sd) ++
            " degrees. Zones Covered: " ++
            vastuZonesObserved sd ++ ".") ++ post.
Proof.
  pose (before :=
    shared_context_0 ++ coreAssessment ++
    shared_context_1 ++ currentRoomTag sd ++
    shared_context_2 ++ currentRoomTag sd ++
    shared_context_3 ++ or_default (roomLocationInHouse sd) "UNKNOWN" ++
    shared_context_4 ++ floor_text (floorNumber sd) ++
    shared_context_5 ++ holisticIssues sd ++
    shared_context_6 ++ holisticSurroundings sd ++ nl ++ "        ").
  pose (after := nl ++ "    ").
  destruct isDeep.
  - exists (deep_template_0 ++ before), (after ++ deep_template_1).
    unfold getAiQuery, sharedContext, before, after.
    cbn [render fold_right piece_text].
    rewrite !append_assoc, !append_nil_r. reflexivity.
  - exists (standard_template_0 ++ before),
           (after ++ standard_template_1 ++ currentRoomTag sd ++
            standard_template_2 ++ roomLocationInHouse sd ++
            standard_template_3).
    unfold getAiQuery, sharedContext, before, after.
    cbn [render fold_right piece_text].
    rewrite !append_assoc, !append_nil_r. reflexivity.
Qed.




(** C8: the observed-zones text of the Stage-2 prompt lists the zone
    labels of the frames without duplicates, in order of first
    appearance (each label once, the labels by increasing position of
    their first occurrence), joined by a comma and a space; the zones
    North, South, North give [North, South]. *)
Theorem C8_observed_zones_are_first_occurrences :
  forall sd : ScanData,
    let zs := map zone (capturedFrames sd) in
    vastuZonesObserved sd = join ", " (Spec.first_occurrences zs) /\
    NoDup (Spec.first_occurrences zs) /\
    (forall z : string, In z (Spec.first_occurrences zs) <-> In z zs) /\
    StronglySorted lt
      (map (fun z => Spec.first_index z zs) (Spec.first_occurrences zs)) /\
    (forall (isDeep : bool) (coreAssessment : string),
        exists pre post : string,
          getAiQuery sd isDeep coreAssessment =
          pre ++ ("Zones Covered: " ++
                  join ", " (Spec.first_occurrences zs) ++ ".") ++ post) /\
    (zs = ["North"; "South"; "North"] ->
     vastuZonesObserved sd = "North, South").
Proof.
  intros sd zs.
  assert (Hzones : vastuZonesObserved sd =
                   join ", " (Spec.first_occurrences zs)).
  { unfold vastuZonesObserved. now rewrite set_of_first_occurrences. }
  split; [exact Hzones |].
  split; [apply first_occurrences_NoDup |].
  split; [apply first_occurrences_In |].
  split; [apply first_occurrences_sorted |].
  split.
  - intros isDeep coreAssessment.
    destruct (getAiQuery_scan_line sd isDeep coreAssessment)
      as (pre & post & E).
    exists (pre ++ "- Scan Data: Average Heading: " ++
            JSNumber.toFixed1 (avgHeading sd) ++ " degrees. "), post.
    rewrite E, <- Hzones. rewrite !append_assoc. reflexivity.
  - intros Hzs. rewrite Hzones, Hzs. reflexivity.
Qed.

Lemma C8_observed_zones_witness :
  vastuZonesObserved (Sample.scan Sample.three_frames) = "North, South".
Proof.
  apply (C8_observed_zones_are_first_occurrences
           (Sample.scan Sample.three_frames)).
  reflexivity.
Defined.

(** C10: a report whose scan has no captured frames is not rejected.
    The average heading is 0 divided by 0, which is NaN and is written
    into the prompt as [NaN]; the zones-covered text is empty; the final
    prompt is still a string; and the handler goes on: it issues the
    Stage-1 call (with the instruction as the only part) and, when both
    calls yield text, answers HTTP 200. *)
Theorem C10_empty_scan_is_not_rejected :
  forall (cfg : Config) (req : ReportRequest),
    key_missing cfg = false ->
    capturedFrames (scanData req) = [] ->
    let sd := scanData req in
    avgHeading sd = (0 / 0)%float /\
    PrimFloat.is_nan (avgHeading sd) = true /\
    JSNumber.toFixed1 (avgHeading sd) = "NaN" /\
    vastuZonesObserved sd = "" /\
    (forall (isDeep : bool) (coreAssessment : string),
        exists pre post : string,
          getAiQuery sd isDeep coreAssessment =
          pre ++ "- Scan Data: Average Heading: NaN degrees. Zones Covered: ."
              ++ post) /\
    (forall t : Transport,
        exists rest : list Call,
          snd (serve t (generateReport cfg req)) =
          generation_call cfg [TextPart (core_query sd [])] :: rest) /\
    (forall core final : string,
        core <> "" -> final <> "" ->
        serve (Mock.echo [core; final]) (generateReport cfg req) =
        (Returned {| httpStatus := 200;
                     httpBody := JObj [("text",
                       JStr (core ++ separator ++ final))] |},
         [generation_call cfg [TextPart (core_query sd [])];
          generation_call cfg
            [TextPart (getAiQuery sd (isDeepAnalysis req) core)]])).
Proof.
  intros cfg req Hkey Hempty sd.
  assert (Havg : avgHeading sd = (0 / 0)%float).
  { unfold avgHeading, sd. rewrite Hempty. reflexivity. }
  assert (Hzones : vastuZonesObserved sd = "").
  { unfold vastuZonesObserved, sd. rewrite Hempty. reflexivity. }
  assert (Hparts : frame_parts sd = []).
  { unfold frame_parts, sd. rewrite Hempty. reflexivity. }
  split; [exact Havg |].
  split; [rewrite Havg; reflexivity |].
  split; [rewrite Havg; reflexivity |].
  split; [exact Hzones |].
  split; [| split].
  - intros isDeep coreAssessment.
    destruct (getAiQuery_scan_line sd isDeep coreAssessment)
      as (pre & post & E).
    exists pre, post. rewrite E, Havg, Hzones. reflexivity.
  - intros t.
    destruct (generateReport_first_call cfg req t Hkey) as [rest E].
    exists rest. rewrite E. unfold stage1_call. fold sd.
    rewrite Hparts. reflexivity.
  - intros core final Hcore Hfinal.
    rewrite (generateReport_echo cfg req core final Hkey Hcore Hfinal).
    unfold stage1_call, stage2_call. fold sd. rewrite Hparts.
    reflexivity.
Qed.

Lemma C10_empty_scan_witness :
  JSNumber.toFixed1 (avgHeading (Sample.scan [])) = "NaN" /\
  vastuZonesObserved (Sample.scan []) = "" /\
  serve (Mock.echo ["CoreAssessmentMock"; "FinalMock"])
    (generateReport Sample.cfg (Sample.report false [])) =
  (Returned {| httpStatus := 200;
               httpBody := JObj [("text",
                 JStr ("CoreAssessmentMock" ++ separator ++ "FinalMock"))] |},
   [generation_call Sample.cfg [TextPart (core_query (Sample.scan []) [])];
    generation_call Sample.cfg
      [TextPart (getAiQuery (Sample.scan []) false "CoreAssessmentMock")]]).
Proof.
  destruct (C10_empty_scan_is_not_rejected Sample.cfg
              (Sample.report false []) eq_refl eq_refl)
    as (_ & _ & Hfixed & Hzones & _ & _ & Hecho).
  split; [exact Hfixed |].
  split; [exact Hzones |].
  apply Hecho; discriminate.
Defined.

End ScanSummaryClaims.

(** ** The two templates of the final prompt *)

Section TemplateClaims.
Import JSString JSON Effect Server Marker.

Lemma getAiQuery_final_pieces (sd : ScanData) (isDeep : bool)
  (coreAssessment : string) :
  getAiQuery sd isDeep coreAssessment =
  render (final_pieces sd isDeep coreAssessment).
Proof.
  destruct isDeep; unfold getAiQuery, final_pieces.
  - change (render (Lit deep_template_0 ::
                    sharedContext sd coreAssessment ++ [Lit deep_template_1]))
      with (deep_template_0 ++
            render (sharedContext sd coreAssessment ++ [Lit deep_template_1])).
    rewrite render_app. reflexivity.
  - match goal with
    | |- _ = render (Lit ?l :: ?t ++ ?u) =>
        change (render (Lit l :: t ++ u)) with (l ++ render (t ++ u))
    end.
    rewrite render_app. reflexivity.
Qed.

Lemma joined_pieces_render (l : list string) :
  render (joined_pieces l) = join ", " l.
Proof.
  induction l as [| x rest IH]; [reflexivity |].
  destruct rest as [| y rest].
  - apply append_nil_r.
  - change (render (joined_pieces (x :: y :: rest)))
      with (x ++ ", " ++ render (joined_pieces (y :: rest))).
    now rewrite IH.
Qed.

Lemma joined_pieces_separated (l : list string) :
  subs_separated (joined_pieces l) = true.
Proof.
  induction l as [| x rest IH]; [reflexivity |].
  destruct rest as [| y rest]; [reflexivity |].
  change (joined_pieces (x :: y :: rest))
    with (Sub x :: Lit ", " :: joined_pieces (y :: rest)).
  cbn [subs_separated andb]. exact IH.
Qed.

Lemma joined_pieces_safe (m : string) (l : list string) :
  lit_safe m ", " = true -> lits_safe m (joined_pieces l) = true.
Proof.
  intros Hsep. induction l as [| x rest IH]; [reflexivity |].
  destruct rest as [| y rest]; [reflexivity |].
  change (joined_pieces (x :: y :: rest))
    with (Sub x :: Lit ", " :: joined_pieces (y :: rest)).
  unfold lits_safe in *. cbn [forallb andb]. now rewrite Hsep, IH.
Qed.

Lemma joined_pieces_subs (l : list string) (s : string) :
  In (Sub s) (joined_pieces l) -> In s l.
Proof.
  induction l as [| x rest IH]; [contradiction |].
  destruct rest as [| y rest].
  - intros [H | []]. left. congruence.
  - change (joined_pieces (x :: y :: rest))
      with (Sub x :: Lit ", " :: joined_pieces (y :: rest)).
    intros [H | [H | H]].
    + left. congruence.
    + discriminate.
    + right. now apply IH.
Qed.

(** Labels that do not contain [m] do not form it when joined. *)
Lemma join_excludes (m : string) (l : list string) :
  m <> "" -> lit_safe m ", " = true ->
  (forall z : string, In z l -> includes m z = false) ->
  includes m (join ", " l) = false.
Proof.
  intros Hm Hsep Hl. rewrite <- joined_pieces_render.
  apply render_excludes; auto using joined_pieces_separated,
                                    joined_pieces_safe.
  intros s Hs. apply Hl. now apply joined_pieces_subs.
Qed.

Lemma set_of_incl (l : list string) (z : string) :
  In z (set_of l) -> In z l.
Proof.
  rewrite set_of_first_occurrences. apply first_occurrences_In.
Qed.

Lemma or_default_excludes (m s d : string) :
  includes m s = false -> includes m d = false ->
  includes m (or_default s d) = false.
Proof. destruct s; auto. Qed.

Lemma forallb_template_literals (m : string) (isDeep : bool) :
  forallb (lit_safe m) (template_literals isDeep) = true ->
  forall l : string, In l (template_literals isDeep) -> lit_safe m l = true.
Proof.
  intros H l Hl. rewrite forallb_forall in H. now apply H.
Qed.

(** The final prompt does not contain a marker [m] that has an asterisk
    when its literal text is safe for [m] and none of the strings it takes
    from the request and from the core assessment contains [m]. *)
Lemma getAiQuery_excludes (m : string) (sd : ScanData) (isDeep : bool)
  (coreAssessment : string) :
  has_char "*" m = true ->
  forallb (lit_safe m) (template_literals isDeep) = true ->
  (forall s : string,
      In s (interpolated_strings sd coreAssessment) ->
      includes m s = false) ->
  includes m (getAiQuery sd isDeep coreAssessment) = false.
Proof.
  intros Hstar Hlits Hin.
  assert (Hm : m <> "") by (intros ->; discriminate).
  pose proof (forallb_template_literals m isDeep Hlits) as Hlit.
  assert (Hcore : includes m coreAssessment = false)
    by (apply Hin; now left).
  assert (Hroom : includes m (currentRoomTag sd) = false)
    by (apply Hin; right; now left).
  assert (Hloc : includes m (roomLocationInHouse sd) = false)
    by (apply Hin; do 2 right; now left).
  assert (Hissues : includes m (holisticIssues sd) = false)
    by (apply Hin; do 3 right; now left).
  assert (Hsurr : includes m (holisticSurroundings sd) = false)
    by (apply Hin; do 4 right; now left).
  assert (Hfloor : includes m (floor_text (floorNumber sd)) = false).
  { unfold floor_text. destruct (floorNumber sd) as [s | x] eqn:Hf.
    - apply or_default_excludes.
      + apply Hin. unfold interpolated_strings. rewrite Hf.
        do 5 right. now left.
      + now apply (excludes_by_char "*").
    - destruct (JSNumber.truthy x).
      + apply (excludes_by_char "*"); [exact Hstar |].
        apply toString_no_star.
      + now apply (excludes_by_char "*"). }
  assert (Hzones : includes m (vastuZonesObserved sd) = false).
  { unfold vastuZonesObserved. apply join_excludes; auto.
    - apply Hlit. destruct isDeep; unfold template_literals;
        apply in_or_app; right; do 10 right; now left.
    - intros z Hz. apply Hin. unfold interpolated_strings.
      do 5 right. apply in_or_app. right. now apply set_of_incl. }
  assert (Havg : includes m (JSNumber.toFixed1 (avgHeading sd)) = false).
  { apply (excludes_by_char "*"); [exact Hstar |]. apply toFixed1_no_star. }
  assert (Hunknown : includes m (or_default (roomLocationInHouse sd)
                                   "UNKNOWN") = false).
  { apply or_default_excludes; [exact Hloc |].
    now apply (excludes_by_char "*"). }
  rewrite getAiQuery_final_pieces. apply render_excludes; [exact Hm | | |].
  - now destruct isDeep.
  - unfold lits_safe. apply forallb_forall. intros p Hp.
    destruct p as [l | s]; [| reflexivity]. apply Hlit.
    destruct isDeep; unfold final_pieces, sharedContext in Hp;
      cbn [In app] in Hp; unfold template_literals; cbn [In app];
      repeat (destruct Hp as [Hp | Hp];
              [first [discriminate Hp
                     | injection Hp as <-; tauto] |]);
      contradiction.
  - intros s Hs.
    destruct isDeep; unfold final_pieces, sharedContext in Hs;
      cbn [In app] in Hs;
      repeat (destruct Hs as [Hs | Hs];
              [first [discriminate Hs
                     | injection Hs as <-; assumption] |]);
      contradiction.
Qed.

Lemma free_of_excludes (markers : list string) (l : list string) :
  forallb (free_of markers) l = true ->
  forall m s : string, In m markers -> In s l -> includes m s = false.
Proof.
  intros H m s Hm Hs. rewrite forallb_forall in H.
  specialize (H s Hs). unfold free_of in H. rewrite forallb_forall in H.
  specialize (H m Hm). now apply negb_true_iff in H.
Qed.

Lemma includes_render (m l : string) (t : list piece) :
  In (Lit l) t -> includes m l = true -> includes m (render t) = true.
Proof.
  intros Hin Hl. induction t as [| p t IH]; [contradiction |].
  change (render (p :: t)) with (piece_text p ++ render t).
  destruct Hin as [-> | Hin].
  - now apply includes_app_l.
  - apply includes_app_r. now apply IH.
Qed.

(** C6, as stated, fails: the templates copy request fields and the core
    assessment into the prompt as they are, so a deep-analysis prompt
    contains a section title of the standard report when the user's
    concerns quote it, and a standard prompt contains a structural title
    when the core assessment does. *)
Lemma C6_templates_counterexample :
  In "**I. Executive Summary (Layman's Terms)**" standard_markers /\
  includes "**I. Executive Summary (Layman's Terms)**"
    (getAiQuery Sample.quoting_scan true "CoreAssessmentMock") = true /\
  In "**Major Structural Recommendations**" deep_markers /\
  includes "**Major Structural Recommendations**"
    (getAiQuery (Sample.scan Sample.three_frames) false
       "**Major Structural Recommendations** were requested") = true.
Proof.
  split; [now left |].
  split; [vm_compute; reflexivity |].
  split; [do 2 right; now left |].
  vm_compute; reflexivity.
Qed.

(** C6 (amended): when none of the strings that the request and the core
    assessment contribute to the prompt (core assessment, room tag,
    location, textual floor, concerns, surroundings, zone labels)
    contains a bold section title of the standard report, the
    deep-analysis instruction text contains none of the five either; when
    none of them contains a bold title of the structural analysis, the
    standard instruction text contains none of the three either.  For one
    value of [isDeepAnalysis] one template is emitted: the deep text always
    carries the three structural titles and the standard text always
    carries the five section titles. *)
Theorem C6_templates_are_exclusive :
  forall (sd : ScanData) (coreAssessment : string),
    (forallb (free_of standard_markers)
       (interpolated_strings sd coreAssessment) = true ->
     forall m : string,
       In m standard_markers ->
       includes m (getAiQuery sd true coreAssessment) = false) /\
    (forallb (free_of deep_markers)
       (interpolated_strings sd coreAssessment) = true ->
     forall m : string,
       In m deep_markers ->
       includes m (getAiQuery sd false coreAssessment) = false) /\
    (forall m : string,
        In m deep_markers ->
        includes m (getAiQuery sd true coreAssessment) = true) /\
    (forall m : string,
        In m standard_markers ->
        includes m (getAiQuery sd false coreAssessment) = true).
Proof.
  intros sd coreAssessment.
  assert (Hstd :
    forallb (fun m => has_char "*" m &&
                      forallb (lit_safe m) (template_literals true))
      standard_markers = true) by (vm_compute; reflexivity).
  assert (Hdeep :
    forallb (fun m => has_char "*" m &&
                      forallb (lit_safe m) (template_literals false))
      deep_markers = true) by (vm_compute; reflexivity).
  rewrite forallb_forall in Hstd, Hdeep.
  split; [| split; [| split]].
  - intros Hfree m Hm. specialize (Hstd m Hm).
    apply andb_true_iff in Hstd. destruct Hstd as [Hstar Hlits].
    apply getAiQuery_excludes; auto.
    intros s Hs. exact (free_of_excludes _ _ Hfree m s Hm Hs).
  - intros Hfree m Hm. specialize (Hdeep m Hm).
    apply andb_true_iff in Hdeep. destruct Hdeep as [Hstar Hlits].
    apply getAiQuery_excludes; auto.
    intros s Hs. exact (free_of_excludes _ _ Hfree m s Hm Hs).
  - intros m Hm. rewrite getAiQuery_final_pieces.
    apply (includes_render m deep_template_1).
    + right. apply in_or_app. right. now left.
    + assert (H : forallb (fun m => includes m deep_template_1)
                    deep_markers = true) by (vm_compute; reflexivity).
      rewrite forallb_forall in H. now apply H.
  - intros m Hm. rewrite getAiQuery_final_pieces.
    destruct Hm as [<- | Hm].
    + apply (includes_render _ standard_template_1).
      * right. apply in_or_app. right. now left.
      * vm_compute; reflexivity.
    + apply (includes_render _ standard_template_3).
      * right. apply in_or_app. right. do 4 right. now left.
      * assert (H : forallb (fun m => includes m standard_template_3)
                      (tl standard_markers) = true)
          by (vm_compute; reflexivity).
        rewrite forallb_forall in H. now apply H.
Qed.

Lemma C6_templates_witness :
  (forall m : string,
      In m standard_markers ->
      includes m (getAiQuery (Sample.scan Sample.three_frames) true
                    "CoreAssessmentMock") = false) /\
  (forall m : string,
      In m deep_markers ->
      includes m (getAiQuery (Sample.scan Sample.three_frames) false
                    "CoreAssessmentMock") = false).
Proof.
  destruct (C6_templates_are_exclusive (Sample.scan Sample.three_frames)
              "CoreAssessmentMock") as (Hdeep & Hstd & _ & _).
  split.
  - apply Hdeep. vm_compute. reflexivity.
  - apply Hstd. vm_compute. reflexivity.
Defined.

End TemplateClaims.

(** ** Every path through the handlers *)

Section OutcomeFacts.
Import JSString JSON Effect Server.

Variable cfg : Config.
Hypothesis key_present : key_missing cfg = false.

(** One generation round: the [fetch], the status test, [json()], the
    optional chain and the fallback. *)
Lemma run_generation_round {A : Type} (t : Transport) (c : Call)
  (log : list Call) (prefix fallback : string) (k : json -> Prog A) :
  run t log
    (response <- fetch c ;;
     if negb (ok response) then
       Throw (prefix ++ JSString.of_nat (status response) ++ " - " ++
              bodyText response)
     else
       result <- response_json response ;;
       text <- first_candidate_text result ;;
       k (or_else text fallback)) =
  match Answer.outcome prefix fallback (t (log ++ [c])%list) with
  | Thrown m => (Thrown m, (log ++ [c])%list)
  | Returned v => run t (log ++ [c])%list (k v)
  end.
Proof.
  rewrite run_bind, run_fetch. unfold Answer.outcome.
  destruct (t (log ++ [c])%list) as [m | r]; [reflexivity |].
  destruct (ok r); cbn [negb]; [| reflexivity].
  rewrite run_bind. unfold response_json.
  destruct (bodyJson r) as [j | m]; cbn [run]; [| reflexivity].
  rewrite run_bind. destruct j; reflexivity.
Qed.

Lemma run_generateCoreAssessment (t : Transport) (sd : ScanData)
  (parts : list Part) (log : list Call) :
  let c := generation_call cfg (parts ++ [TextPart (core_query sd parts)])%list in
  run t log (generateCoreAssessment cfg sd parts) =
  (Answer.outcome "Google API Error (Core Assessment): "
     assessment_placeholder (t (log ++ [c])%list),
   (log ++ [c])%list).
Proof.
  intros c. unfold generateCoreAssessment. rewrite key_present.
  etransitivity;
    [exact (run_generation_round t c log
              "Google API Error (Core Assessment): " assessment_placeholder
              (fun v => Ret v)) |].
  destruct (Answer.outcome _ _ _); reflexivity.
Qed.

(** The report handler, path by path. *)
Lemma serve_generateReport (t : Transport) (req : ReportRequest) :
  serve t (generateReport cfg req) =
  match Answer.outcome "Google API Error (Core Assessment): "
          assessment_placeholder (t [stage1_call cfg (scanData req)]) with
  | Thrown m =>
      (Returned (Answer.failed m), [stage1_call cfg (scanData req)])
  | Returned coreAssessment =>
      (Returned (fst (Answer.report_response cfg req t coreAssessment)),
       snd (Answer.report_response cfg req t coreAssessment))
  end.
Proof.
  unfold serve, generateReport. rewrite key_present, run_try_catch.
  unfold generateReport_body. rewrite run_bind, run_generateCoreAssessment.
  change ([] ++ [generation_call cfg
                   (frame_parts (scanData req) ++
                    [TextPart (core_query (scanData req)
                                 (frame_parts (scanData req)))])])%list
    with [stage1_call cfg (scanData req)].
  destruct (Answer.outcome _ assessment_placeholder _) as [v | m];
    [| reflexivity].
  rewrite run_bind. unfold Answer.report_response, interpolate at 1.
  destruct (to_string v) as [coreText |]; cbn [run fst snd];
    [| reflexivity].
  rewrite (run_generation_round t _ _ "Google API Error: " ""
             (fun aiResponse =>
                aiText <- interpolate aiResponse ;;
                Ret (res_json (text_body
                       (JStr (coreText ++ separator ++ aiText)))))).
  change ([stage1_call cfg (scanData req)] ++
          [generation_call cfg
             (frame_parts (scanData req) ++
              [TextPart (getAiQuery (scanData req) (isDeepAnalysis req)
                           coreText)])])%list
    with [stage1_call cfg (scanData req); stage2_call cfg req coreText].
  destruct (Answer.outcome "Google API Error: " "" _) as [a | m];
    [| reflexivity].
  rewrite run_bind. unfold interpolate.
  destruct (to_string a); reflexivity.
Qed.

(** The chat handler, path by path. *)
Lemma serve_handleChat (t : Transport) (req : ChatRequest) :
  serve t (handleChat cfg req) =
  (Returned
     match Answer.outcome "Google API Error: " chat_fallback
             (t [chat_call cfg req]) with
     | Thrown m => Answer.failed m
     | Returned v => res_json (text_body v)
     end,
   [chat_call cfg req]).
Proof.
  unfold serve, handleChat. rewrite key_present, run_try_catch.
  unfold handleChat_body.
  rewrite (run_generation_round t _ [] "Google API Error: " chat_fallback
             (fun v => Ret (res_json (text_body v)))).
  change ([] ++ [ {| url := apiUrl cfg;
                     body := {| contents := History (chatHistory req);
                                safetySettings := None;
                                systemInstruction :=
                                  Some (chatSystemPrompt
                                          (chatContextSummary req)) |} |} ])%list
    with [chat_call cfg req].
  destruct (Answer.outcome _ _ _); reflexivity.
Qed.

(** The report handler of the first revision, path by path. *)
Lemma serve_generateReport_v1 (t : Transport) (req : ReportRequest) :
  serve t (ServerV1.generateReport cfg req) =
  (Returned
     match Answer.outcome "Google API Error: " ""
             (t [ServerV1.report_call cfg req]) with
     | Thrown m => Answer.failed m
     | Returned v => res_json (text_body v)
     end,
   [ServerV1.report_call cfg req]).
Proof.
  unfold serve, ServerV1.generateReport.
  rewrite key_present, run_try_catch. unfold ServerV1.generateReport_body.
  rewrite (run_generation_round t _ [] "Google API Error: " ""
             (fun v => Ret (res_json (text_body v)))).
  change ([] ++ [generation_call cfg
                   (ServerV1.frame_parts (scanData req) ++
                    [TextPart (ServerV1.getAiQuery (scanData req)
                                 (isDeepAnalysis req))])])%list
    with [ServerV1.report_call cfg req].
  destruct (Answer.outcome _ _ _); reflexivity.
Qed.

End OutcomeFacts.

(** ** The answers of the handlers *)

Section HandlerContracts.
Import JSString JSON Effect Server.

Lemma outcome_returned_inv (prefix fallback : string) (a : FetchResult)
  (v : json) :
  Answer.outcome prefix fallback a = Returned v ->
  exists (r : Response) (j : json),
    a = Resolved r /\ ok r = true /\ bodyJson r = inl j /\ j <> JNull /\
    v = or_else (candidate_text j) fallback.
Proof.
  unfold Answer.outcome. destruct a as [m | r]; [discriminate |].
  destruct (ok r) eqn:Hok; [| discriminate].
  destruct (bodyJson r) as [j | m] eqn:Hj; [| discriminate].
  intros H. exists r, j.
  destruct j; try discriminate; injection H as <-;
    repeat split; try assumption; discriminate.
Qed.

Lemma or_else_truthy (r : option json) (d : string) :
  d <> "" -> truthy (or_else r d) = true.
Proof.
  intros Hd. unfold or_else.
  assert (Hdef : truthy (JStr d) = true).
  { simpl. destruct (String.eqb_spec d ""); [contradiction | reflexivity]. }
  destruct r as [v |]; [| exact Hdef].
  destruct (truthy v) eqn:Hv; [exact Hv | exact Hdef].
Qed.

(** The paths of the report handler. *)
Lemma generateReport_paths (cfg : Config) (req : ReportRequest)
  (t : Transport) :
  exists (resp : HttpResponse) (log : list Call),
    serve t (generateReport cfg req) = (Returned resp, log) /\
    ((httpStatus resp = 200 /\
      exists (coreText aiText : string) (r1 r2 : Response),
        httpBody resp =
          JObj [("text", JStr (coreText ++ separator ++ aiText))] /\
        log = [stage1_call cfg (scanData req);
               stage2_call cfg req coreText] /\
        t [stage1_call cfg (scanData req)] = Resolved r1 /\
        ok r1 = true /\
        t log = Resolved r2 /\ ok r2 = true)
     \/
     (httpStatus resp = 500 /\
      exists message : string,
        httpBody resp = JObj [("error", JStr message)] /\
        (log = [] \/ log = [stage1_call cfg (scanData req)] \/
         exists coreText : string,
           log = [stage1_call cfg (scanData req);
                  stage2_call cfg req coreText]))).
Proof.
  destruct (key_missing cfg) eqn:Hkey.
  - exists (Answer.failed "Server API Key is not configured."), [].
    split.
    + unfold serve, generateReport. now rewrite Hkey.
    + right. split; [reflexivity |]. eexists. split; [reflexivity | now left].
  - rewrite (serve_generateReport cfg Hkey).
    destruct (Answer.outcome _ assessment_placeholder _) as [v | m] eqn:H1.
    + destruct (outcome_returned_inv _ _ _ _ H1)
        as (r1 & j1 & Ht1 & Hok1 & _).
      unfold Answer.report_response.
      destruct (to_string v) as [coreText |].
      * cbn [fst snd].
        destruct (Answer.outcome "Google API Error: " "" _)
          as [a | m] eqn:H2.
        -- destruct (outcome_returned_inv _ _ _ _ H2)
             as (r2 & j2 & Ht2 & Hok2 & _).
           destruct (to_string a) as [aiText |].
           ++ eexists; eexists; split; [reflexivity |]. left.
              split; [reflexivity |].
              exists coreText, aiText, r1, r2. repeat split; assumption.
           ++ eexists; eexists; split; [reflexivity |]. right.
              split; [reflexivity |]. eexists. split; [reflexivity |].
              right; right. now exists coreText.
        -- eexists; eexists; split; [reflexivity |]. right.
           split; [reflexivity |]. eexists. split; [reflexivity |].
           right; right. now exists coreText.
      * eexists; eexists; split; [reflexivity |]. right.
        split; [reflexivity |]. eexists. split; [reflexivity |].
        right; now left.
    + eexists; eexists; split; [reflexivity |]. right.
      split; [reflexivity |]. eexists. split; [reflexivity |].
      right; now left.
Qed.

(** X1: when the calls a report request awaits have settled and the
    handler is done, no error has escaped it and it has answered in one of
    two ways: with HTTP 200 and a [text] that is a core text, the separator
    and a final text, after exactly two calls that were both answered with
    a success status; or with HTTP 500 and an [error] message, after at
    most two calls.  (A call that never settles leaves the request
    unanswered: the code sets no timeout.) *)
Theorem generateReport_answers_200_or_500 :
  forall (cfg : Config) (req : ReportRequest) (t : Transport)
         (outcome : Outcome HttpResponse) (log : list Call),
    serve t (generateReport cfg req) = (outcome, log) ->
    exists resp : HttpResponse,
      outcome = Returned resp /\
      ((httpStatus resp = 200 /\
        exists (coreText aiText : string) (r1 r2 : Response),
          httpBody resp =
            JObj [("text", JStr (coreText ++ separator ++ aiText))] /\
          log = [stage1_call cfg (scanData req);
                 stage2_call cfg req coreText] /\
          t [stage1_call cfg (scanData req)] = Resolved r1 /\
          ok r1 = true /\
          t log = Resolved r2 /\ ok r2 = true)
       \/
       (httpStatus resp = 500 /\
        exists message : string,
          httpBody resp = JObj [("error", JStr message)] /\
          (log = [] \/ log = [stage1_call cfg (scanData req)] \/
           exists coreText : string,
             log = [stage1_call cfg (scanData req);
                    stage2_call cfg req coreText]))).
Proof.
  intros cfg req t outcome log Hrun.
  destruct (generateReport_paths cfg req t) as (resp & log' & E & H).
  rewrite E in Hrun. injection Hrun as <- <-.
  exists resp. split; [reflexivity | exact H].
Qed.

Lemma generateReport_answers_witness :
  exists resp : HttpResponse,
    Returned {| httpStatus := 500;
                httpBody := JObj [("error",
                  JStr "Google API Error: 503 - overloaded")] |} =
    Returned resp /\
    (httpStatus resp = 200 \/ httpStatus resp = 500).
Proof.
  destruct (generateReport_answers_200_or_500 Sample.cfg
              (Sample.report false Sample.three_frames)
              (Mock.scripted
                 [Mock.respond 200 ""
                    (inl (Mock.generation_result (JStr "CoreMock")));
                  Mock.respond 503 "overloaded" (inr "bad json")])
              (Returned {| httpStatus := 500;
                           httpBody := JObj [("error",
                             JStr "Google API Error: 503 - overloaded")] |})
              [stage1_call Sample.cfg (Sample.scan Sample.three_frames);
               stage2_call Sample.cfg
                 (Sample.report false Sample.three_frames) "CoreMock"]
              eq_refl)
    as (resp & E & [[H _] | [H _]]);
    exists resp; (split; [exact E |]); [left | right]; exact H.
Defined.

(** The paths of the chat handler. *)
Lemma handleChat_paths (cfg : Config) (req : ChatRequest) (t : Transport) :
  exists (resp : HttpResponse) (log : list Call),
    serve t (handleChat cfg req) = (Returned resp, log) /\
    ((httpStatus resp = 200 /\
      exists (r : Response) (j : json),
        log = [chat_call cfg req] /\
        t log = Resolved r /\ ok r = true /\ bodyJson r = inl j /\
        httpBody resp =
          JObj [("text",
                 or_else (candidate_text j)
                   "Sorry, I couldn't process that query.")])
     \/
     (httpStatus resp = 500 /\
      exists message : string,
        httpBody resp = JObj [("error", JStr message)] /\
        (log = [] \/ log = [chat_call cfg req]))).
Proof.
  destruct (key_missing cfg) eqn:Hkey.
  - exists (Answer.failed "Server API Key is not configured."), [].
    split.
    + unfold serve, handleChat. now rewrite Hkey.
    + right. split; [reflexivity |]. eexists. split; [reflexivity | now left].
  - rewrite (serve_handleChat cfg Hkey).
    destruct (Answer.outcome _ chat_fallback _) as [v | m] eqn:H1.
    + destruct (outcome_returned_inv _ _ _ _ H1)
        as (r & j & Ht & Hok & Hj & _ & ->).
      eexists; eexists; split; [reflexivity |]. left.
      split; [reflexivity |]. exists r, j.
      repeat split; assumption.
    + eexists; eexists; split; [reflexivity |]. right.
      split; [reflexivity |]. eexists. split; [reflexivity | now right].
Qed.

(** X2: when the call a chat turn awaits has settled and the handler is
    done, no error has escaped it and it has answered in one of two ways.
    With HTTP 200, after the one call, which was answered with a success
    status and a body that parses: the [text] is the fallback sentence
    when the answer carries no first-candidate text, and when that text is
    a string it is the string itself, or the fallback sentence in place of
    the empty string; so a [text] that is a string is never empty.  Or
    with HTTP 500 and an [error] message, after at most that one call.
    (Nothing is said of a first-candidate text that is not a string.) *)
Theorem handleChat_answers_200_or_500 :
  forall (cfg : Config) (req : ChatRequest) (t : Transport)
         (outcome : Outcome HttpResponse) (log : list Call),
    serve t (handleChat cfg req) = (outcome, log) ->
    exists resp : HttpResponse,
      outcome = Returned resp /\
      ((httpStatus resp = 200 /\
        exists (r : Response) (j : json),
          log = [chat_call cfg req] /\
          t log = Resolved r /\ ok r = true /\ bodyJson r = inl j /\
          (candidate_text j = None ->
           httpBody resp =
             JObj [("text", JStr "Sorry, I couldn't process that query.")]) /\
          (forall s : string,
              candidate_text j = Some (JStr s) ->
              httpBody resp =
                JObj [("text",
                       JStr (if String.eqb s ""
                             then "Sorry, I couldn't process that query."
                             else s))]) /\
          (forall s : string,
              httpBody resp = JObj [("text", JStr s)] -> s <> ""))
       \/
       (httpStatus resp = 500 /\
        exists message : string,
          httpBody resp = JObj [("error", JStr message)] /\
          (log = [] \/ log = [chat_call cfg req]))).
Proof.
  intros cfg req t outcome log Hrun.
  destruct (handleChat_paths cfg req t) as (resp & log' & E & H).
  rewrite E in Hrun. injection Hrun as <- <-.
  exists resp. split; [reflexivity |].
  destruct H as [(H200 & r & j & Hlog & Ht & Hok & Hj & Hbody) | H500];
    [left | right; exact H500].
  split; [exact H200 |]. exists r, j.
  repeat split; try assumption.
  - intros Hnone. now rewrite Hbody, Hnone.
  - intros s Hs. rewrite Hbody, Hs. cbn [or_else truthy].
    now destruct (String.eqb s "").
  - intros s Hs. rewrite Hbody in Hs. injection Hs as Hs.
    assert (Htruthy : truthy (JStr s) = true).
    { rewrite <- Hs. apply or_else_truthy. discriminate. }
    intros ->. discriminate Htruthy.
Qed.

Lemma handleChat_answers_witness :
  exists resp : HttpResponse,
    Returned {| httpStatus := 200;
                httpBody := JObj [("text", JStr "Namaste")] |} =
    Returned resp /\
    (httpStatus resp = 200 \/ httpStatus resp = 500).
Proof.
  destruct (handleChat_answers_200_or_500 Sample.cfg Sample.chat
              (Mock.echo ["Namaste"])
              (Returned {| httpStatus := 200;
                           httpBody := JObj [("text", JStr "Namaste")] |})
              [chat_call Sample.cfg Sample.chat]
              eq_refl)
    as (resp & E & [[H _] | [H _]]);
    exists resp; (split; [exact E |]); [left | right]; exact H.
Defined.

Lemma outcome_ok (prefix fallback : string) (r : Response) (j : json) :
  ok r = true -> bodyJson r = inl j -> j <> JNull ->
  Answer.outcome prefix fallback (Resolved r) =
  Returned (or_else (candidate_text j) fallback).
Proof.
  intros Hok Hj Hnn. unfold Answer.outcome. rewrite Hok, Hj.
  destruct j; try reflexivity. now elim Hnn.
Qed.

Lemma outcome_unparsable (prefix fallback : string) (r : Response)
  (m : string) :
  ok r = true -> bodyJson r = inr m ->
  Answer.outcome prefix fallback (Resolved r) = Thrown m.
Proof.
  intros Hok Hj. unfold Answer.outcome. now rewrite Hok, Hj.
Qed.

Lemma outcome_not_ok (prefix fallback : string) (r : Response) :
  ok r = false ->
  Answer.outcome prefix fallback (Resolved r) =
  Thrown (prefix ++ JSString.of_nat (status r) ++ " - " ++ bodyText r).
Proof.
  intros Hok. unfold Answer.outcome. now rewrite Hok.
Qed.

(** The report once Stage 1 has produced a core text. *)
Lemma serve_generateReport_stage2 (cfg : Config) (req : ReportRequest)
  (t : Transport) (r1 : Response) (j1 : json) (coreText : string) :
  key_missing cfg = false ->
  t [stage1_call cfg (scanData req)] = Resolved r1 ->
  ok r1 = true -> bodyJson r1 = inl j1 -> j1 <> JNull ->
  to_string (or_else (candidate_text j1) assessment_placeholder)
    = Some coreText ->
  serve t (generateReport cfg req) =
  (Returned
     match Answer.outcome "Google API Error: " ""
             (t [stage1_call cfg (scanData req);
                 stage2_call cfg req coreText]) with
     | Thrown m => Answer.failed m
     | Returned aiResponse =>
         match to_string aiResponse with
         | None => Answer.failed "Cannot convert object to primitive value"
         | Some aiText =>
             res_json (text_body (JStr (coreText ++ separator ++ aiText)))
         end
     end,
   [stage1_call cfg (scanData req); stage2_call cfg req coreText]).
Proof.
  intros Hkey Ht1 Hok1 Hj1 Hn1 Hs1.
  rewrite (serve_generateReport cfg Hkey), Ht1.
  rewrite (outcome_ok _ _ r1 j1 Hok1 Hj1 Hn1).
  unfold Answer.report_response. rewrite Hs1. reflexivity.
Qed.

(** X3: when Stage 1 of a report has succeeded and the Stage-2 call is
    answered with a status outside 200-299, the handler answers HTTP 500
    with the message [Google API Error: status - body] (without the
    core-assessment tag of a Stage-1 failure), after the two calls; the
    core assessment already obtained is not returned. *)
Theorem stage2_failure_is_reported :
  forall (cfg : Config) (req : ReportRequest) (t : Transport)
         (r1 r2 : Response) (j1 : json) (coreText : string),
    key_missing cfg = false ->
    t [stage1_call cfg (scanData req)] = Resolved r1 ->
    ok r1 = true -> bodyJson r1 = inl j1 -> j1 <> JNull ->
    to_string (or_else (candidate_text j1) assessment_placeholder)
      = Some coreText ->
    t [stage1_call cfg (scanData req); stage2_call cfg req coreText]
      = Resolved r2 ->
    ok r2 = false ->
    serve t (generateReport cfg req) =
    (Returned {| httpStatus := 500;
                 httpBody := JObj [("error",
                   JStr ("Google API Error: " ++
                         JSString.of_nat (status r2) ++ " - " ++
                         bodyText r2))] |},
     [stage1_call cfg (scanData req); stage2_call cfg req coreText]).
Proof.
  intros cfg req t r1 r2 j1 coreText Hkey Ht1 Hok1 Hj1 Hn1 Hs1 Ht2 Hok2.
  rewrite (serve_generateReport_stage2 cfg req t r1 j1 coreText) by assumption.
  rewrite Ht2, outcome_not_ok by assumption. reflexivity.
Qed.

Lemma stage2_failure_witness :
  serve (Mock.scripted
           [Mock.respond 200 ""
              (inl (Mock.generation_result (JStr "CoreAssessmentMock")));
            Mock.respond 429 "quota exceeded" (inr "bad json")])
    (generateReport Sample.cfg (Sample.report true Sample.three_frames)) =
  (Returned {| httpStatus := 500;
               httpBody := JObj [("error",
                 JStr "Google API Error: 429 - quota exceeded")] |},
   [stage1_call Sample.cfg (Sample.scan Sample.three_frames);
    stage2_call Sample.cfg (Sample.report true Sample.three_frames)
      "CoreAssessmentMock"]).
Proof.
  apply (stage2_failure_is_reported Sample.cfg
           (Sample.report true Sample.three_frames) _
           {| status := 200; bodyText := "";
              bodyJson := inl (Mock.generation_result
                                 (JStr "CoreAssessmentMock")) |}
           {| status := 429; bodyText := "quota exceeded";
              bodyJson := inr "bad json" |}
           (Mock.generation_result (JStr "CoreAssessmentMock")));
    try reflexivity; discriminate.
Defined.

(** X4: a [fetch] that rejects and a success response whose body does not
    parse are answered with HTTP 500 carrying the message of that error,
    at Stage 1 (after one call) and at Stage 2 (after two calls). *)
Theorem transport_errors_become_500 :
  forall (cfg : Config) (req : ReportRequest) (t : Transport),
    key_missing cfg = false ->
    let c1 := stage1_call cfg (scanData req) in
    (forall m : string,
        t [c1] = Rejected m ->
        serve t (generateReport cfg req) =
        (Returned {| httpStatus := 500;
                     httpBody := JObj [("error", JStr m)] |}, [c1])) /\
    (forall (r : Response) (m : string),
        t [c1] = Resolved r -> ok r = true -> bodyJson r = inr m ->
        serve t (generateReport cfg req) =
        (Returned {| httpStatus := 500;
                     httpBody := JObj [("error", JStr m)] |}, [c1])) /\
    (forall (r1 : Response) (j1 : json) (coreText : string),
        t [c1] = Resolved r1 ->
        ok r1 = true -> bodyJson r1 = inl j1 -> j1 <> JNull ->
        to_string (or_else (candidate_text j1) assessment_placeholder)
          = Some coreText ->
        let c2 := stage2_call cfg req coreText in
        (forall m : string,
            t [c1; c2] = Rejected m ->
            serve t (generateReport cfg req) =
            (Returned {| httpStatus := 500;
                         httpBody := JObj [("error", JStr m)] |},
             [c1; c2])) /\
        (forall (r : Response) (m : string),
            t [c1; c2] = Resolved r -> ok r = true ->
            bodyJson r = inr m ->
            serve t (generateReport cfg req) =
            (Returned {| httpStatus := 500;
                         httpBody := JObj [("error", JStr m)] |},
             [c1; c2]))).
Proof.
  intros cfg req t Hkey c1. split; [| split].
  - intros m Ht. rewrite (serve_generateReport cfg Hkey). fold c1.
    now rewrite Ht.
  - intros r m Ht Hok Hj. rewrite (serve_generateReport cfg Hkey). fold c1.
    rewrite Ht, (outcome_unparsable _ _ r m) by assumption. reflexivity.
  - intros r1 j1 coreText Ht1 Hok1 Hj1 Hn1 Hs1 c2. split.
    + intros m Ht2.
      rewrite (serve_generateReport_stage2 cfg req t r1 j1 coreText)
        by assumption.
      fold c1 c2. now rewrite Ht2.
    + intros r m Ht2 Hok Hj.
      rewrite (serve_generateReport_stage2 cfg req t r1 j1 coreText)
        by assumption.
      fold c1 c2. rewrite Ht2, (outcome_unparsable _ _ r m) by assumption.
      reflexivity.
Qed.

Lemma transport_errors_witness :
  serve (Mock.scripted [Rejected "getaddrinfo ENOTFOUND"])
    (generateReport Sample.cfg (Sample.report false Sample.three_frames)) =
  (Returned {| httpStatus := 500;
               httpBody := JObj [("error",
                                  JStr "getaddrinfo ENOTFOUND")] |},
   [stage1_call Sample.cfg (Sample.scan Sample.three_frames)]).
Proof.
  apply (proj1 (transport_errors_become_500 Sample.cfg
                  (Sample.report false Sample.three_frames)
                  (Mock.scripted [Rejected "getaddrinfo ENOTFOUND"])
                  eq_refl)).
  reflexivity.
Defined.

(** X5: a chat turn whose call is answered with a status outside 200-299
    gives HTTP 500 with [Google API Error: status - body]; a rejected
    [fetch] and an unparsable body give HTTP 500 with that error's
    message; each after exactly one call. *)
Theorem handleChat_failures :
  forall (cfg : Config) (req : ChatRequest) (t : Transport),
    key_missing cfg = false ->
    (forall r : Response,
        t [chat_call cfg req] = Resolved r -> ok r = false ->
        serve t (handleChat cfg req) =
        (Returned {| httpStatus := 500;
                     httpBody := JObj [("error",
                       JStr ("Google API Error: " ++
                             JSString.of_nat (status r) ++ " - " ++
                             bodyText r))] |},
         [chat_call cfg req])) /\
    (forall m : string,
        t [chat_call cfg req] = Rejected m ->
        serve t (handleChat cfg req) =
        (Returned {| httpStatus := 500;
                     httpBody := JObj [("error", JStr m)] |},
         [chat_call cfg req])) /\
    (forall (r : Response) (m : string),
        t [chat_call cfg req] = Resolved r -> ok r = true ->
        bodyJson r = inr m ->
        serve t (handleChat cfg req) =
        (Returned {| httpStatus := 500;
                     httpBody := JObj [("error", JStr m)] |},
         [chat_call cfg req])).
Proof.
  intros cfg req t Hkey. split; [| split].
  - intros r Ht Hok. rewrite (serve_handleChat cfg Hkey), Ht.
    now rewrite outcome_not_ok.
  - intros m Ht. now rewrite (serve_handleChat cfg Hkey), Ht.
  - intros r m Ht Hok Hj. rewrite (serve_handleChat cfg Hkey), Ht.
    now rewrite (outcome_unparsable _ _ r m).
Qed.

Lemma handleChat_failures_witness :
  serve (Mock.scripted [Mock.respond 400 "bad request" (inr "bad json")])
    (handleChat Sample.cfg Sample.chat) =
  (Returned {| httpStatus := 500;
               httpBody := JObj [("error",
                 JStr "Google API Error: 400 - bad request")] |},
   [chat_call Sample.cfg Sample.chat]).
Proof.
  apply (proj1 (handleChat_failures Sample.cfg Sample.chat
                  (Mock.scripted
                     [Mock.respond 400 "bad request" (inr "bad json")])
                  eq_refl)
           {| status := 400; bodyText := "bad request";
              bodyJson := inr "bad json" |});
    reflexivity.
Defined.

(** X6: a chat turn relays a first-candidate text that is a non-empty
    string as it is, and answers with the fallback sentence when that text
    is the empty string, with HTTP 200 after the one call. *)
Theorem handleChat_relays_string_or_falls_back :
  forall (cfg : Config) (req : ChatRequest) (t : Transport)
         (r : Response) (j : json) (s : string),
    key_missing cfg = false ->
    t [chat_call cfg req] = Resolved r ->
    ok r = true -> bodyJson r = inl j ->
    candidate_text j = Some (JStr s) ->
    serve t (handleChat cfg req) =
    (Returned {| httpStatus := 200;
                 httpBody := JObj [("text",
                   JStr (if String.eqb s ""
                         then "Sorry, I couldn't process that query."
                         else s))] |},
     [chat_call cfg req]).
Proof.
  intros cfg req t r j s Hkey Ht Hok Hj Hs.
  rewrite (serve_handleChat cfg Hkey), Ht.
  rewrite (outcome_ok _ _ r j Hok Hj)
    by (now apply candidate_text_some_not_null with (JStr s)).
  rewrite Hs. cbn [or_else truthy]. now destruct (String.eqb s "").
Qed.

Lemma handleChat_relays_witness :
  serve (Mock.echo [""]) (handleChat Sample.cfg Sample.chat) =
  (Returned {| httpStatus := 200;
               httpBody := JObj [("text",
                 JStr "Sorry, I couldn't process that query.")] |},
   [chat_call Sample.cfg Sample.chat]).
Proof.
  apply (handleChat_relays_string_or_falls_back Sample.cfg Sample.chat
           (Mock.echo [""])
           {| status := 200; bodyText := "";
              bodyJson := inl (Mock.generation_result (JStr "")) |}
           (Mock.generation_result (JStr "")) "");
    reflexivity.
Defined.

(** X7: a text that is present but falsy is treated like a missing one on
    the report path as well: at Stage 1 the placeholder assessment takes
    its place, at Stage 2 the empty string, and the report is HTTP 200
    with the placeholder followed by the separator alone. *)
Theorem report_with_falsy_texts :
  forall (cfg : Config) (req : ReportRequest) (t : Transport)
         (r1 r2 : Response) (j1 j2 v1 v2 : json),
    key_missing cfg = false ->
    t [stage1_call cfg (scanData req)] = Resolved r1 ->
    ok r1 = true -> bodyJson r1 = inl j1 ->
    candidate_text j1 = Some v1 -> truthy v1 = false ->
    t [stage1_call cfg (scanData req);
       stage2_call cfg req assessment_placeholder] = Resolved r2 ->
    ok r2 = true -> bodyJson r2 = inl j2 ->
    candidate_text j2 = Some v2 -> truthy v2 = false ->
    serve t (generateReport cfg req) =
    (Returned {| httpStatus := 200;
                 httpBody := JObj [("text",
                   JStr (assessment_placeholder ++ separator))] |},
     [stage1_call cfg (scanData req);
      stage2_call cfg req assessment_placeholder]).
Proof.
  intros cfg req t r1 r2 j1 j2 v1 v2 Hkey Ht1 Hok1 Hj1 Hv1 Hf1
         Ht2 Hok2 Hj2 Hv2 Hf2.
  rewrite (generateReport_two_stages cfg Hkey t req r1 r2 j1 j2
             assessment_placeholder "");
    try assumption.
  - now rewrite append_nil_r.
  - now apply candidate_text_some_not_null with v1.
  - rewrite Hv1. unfold or_else. now rewrite Hf1.
  - now apply candidate_text_some_not_null with v2.
  - rewrite Hv2. unfold or_else. now rewrite Hf2.
Qed.

Lemma report_with_falsy_texts_witness :
  serve (Mock.echo [""; ""])
    (generateReport Sample.cfg (Sample.report false Sample.three_frames)) =
  (Returned {| httpStatus := 200;
               httpBody := JObj [("text",
                 JStr (assessment_placeholder ++ separator))] |},
   [stage1_call Sample.cfg (Sample.scan Sample.three_frames);
    stage2_call Sample.cfg (Sample.report false Sample.three_frames)
      assessment_placeholder]).
Proof.
  apply (report_with_falsy_texts Sample.cfg
           (Sample.report false Sample.three_frames) (Mock.echo [""; ""])
           {| status := 200; bodyText := "";
              bodyJson := inl (Mock.generation_result (JStr "")) |}
           {| status := 200; bodyText := "";
              bodyJson := inl (Mock.generation_result (JStr "")) |}
           (Mock.generation_result (JStr ""))
           (Mock.generation_result (JStr "")) (JStr "") (JStr ""));
    reflexivity.
Defined.

End HandlerContracts.

(** ** The calls the handlers issue *)

Section CallFacts.
Import JSString JSON Effect Server.

Lemma key_present_inv (cfg : Config) :
  key_missing cfg = false ->
  exists k : string, GEMINI_API_KEY cfg = Some k /\ k <> "".
Proof.
  unfold key_missing. destruct (GEMINI_API_KEY cfg) as [k |];
    [| discriminate].
  intros H. exists k. split; [reflexivity |].
  now apply String.eqb_neq.
Qed.

Lemma apiUrl_key (cfg : Config) (k : string) :
  GEMINI_API_KEY cfg = Some k ->
  apiUrl cfg =
  "https://generativelanguage.googleapis.com/v1beta/models/gemini-2.5-flash:generateContent?key=" ++ k.
Proof.
  intros H. unfold apiUrl, key_text. rewrite H. reflexivity.
Qed.

(** X8: every call a report issues goes to the [generateContent] URL of
    the model [gemini-2.5-flash] with the configured, non-empty key,
    switches the four harm categories to [BLOCK_NONE], sets no system
    instruction, and carries the image and marker parts of the frames
    followed by exactly one instruction part; in particular Stage 2
    sends the frame parts again and does not resend the Stage-1
    instruction. *)
Theorem report_calls_shape :
  forall (cfg : Config) (req : ReportRequest) (t : Transport),
    Forall
      (fun c : Call =>
         (exists k : string,
             GEMINI_API_KEY cfg = Some k /\ k <> "" /\
             url c =
             "https://generativelanguage.googleapis.com/v1beta/models/gemini-2.5-flash:generateContent?key=" ++ k) /\
         safetySettings (body c) =
           Some [("HARM_CATEGORY_HARASSMENT", "BLOCK_NONE");
                 ("HARM_CATEGORY_HATE_SPEECH", "BLOCK_NONE");
                 ("HARM_CATEGORY_SEXUALLY_EXPLICIT", "BLOCK_NONE");
                 ("HARM_CATEGORY_DANGEROUS_CONTENT", "BLOCK_NONE")] /\
         systemInstruction (body c) = None /\
         exists instruction : string,
           contents (body c) =
           UserParts (frame_parts (scanData req) ++
                      [TextPart instruction])%list)
      (snd (serve t (generateReport cfg req))).
Proof.
  intros cfg req t. destruct (key_missing cfg) eqn:Hkey.
  - unfold serve, generateReport. rewrite Hkey. constructor.
  - destruct (key_present_inv cfg Hkey) as (k & Hk & Hne).
    assert (Hcall : forall instruction : string,
      (exists k0 : string,
          GEMINI_API_KEY cfg = Some k0 /\ k0 <> "" /\
          url (generation_call cfg
                 (frame_parts (scanData req) ++ [TextPart instruction])%list) =
          "https://generativelanguage.googleapis.com/v1beta/models/gemini-2.5-flash:generateContent?key=" ++ k0) /\
      safetySettings
        (body (generation_call cfg
                 (frame_parts (scanData req) ++ [TextPart instruction])%list)) =
        Some block_none /\
      systemInstruction
        (body (generation_call cfg
                 (frame_parts (scanData req) ++ [TextPart instruction])%list)) =
        None /\
      exists instruction0 : string,
        contents
          (body (generation_call cfg
                   (frame_parts (scanData req) ++ [TextPart instruction])%list)) =
        UserParts (frame_parts (scanData req) ++ [TextPart instruction0])%list).
    { intros instruction. split; [| split; [| split]].
      - exists k. repeat split; auto. now apply apiUrl_key.
      - reflexivity.
      - reflexivity.
      - now exists instruction. }
    rewrite (serve_generateReport cfg Hkey).
    destruct (Answer.outcome _ assessment_placeholder _) as [v | m];
      cbn [snd].
    + unfold Answer.report_response.
      destruct (to_string v) as [coreText |]; cbn [snd].
      * constructor; [apply Hcall |]. constructor; [apply Hcall |].
        constructor.
      * constructor; [apply Hcall | constructor].
    + constructor; [apply Hcall | constructor].
Qed.

(** X9: the call of a chat turn goes to the [generateContent] URL of
    the model [gemini-2.5-flash] with the configured, non-empty key, sets
    no safety settings, and its system instruction carries the context
    summary between the two context markers. *)
Theorem chat_call_instruction :
  forall (cfg : Config) (req : ChatRequest) (t : Transport),
    Forall
      (fun c : Call =>
         (exists k : string,
             GEMINI_API_KEY cfg = Some k /\ k <> "" /\
             url c =
             "https://generativelanguage.googleapis.com/v1beta/models/gemini-2.5-flash:generateContent?key=" ++ k) /\
         safetySettings (body c) = None /\
         exists pre post : string,
           systemInstruction (body c) =
           Some (pre ++ "--- REPORT CONTEXT START --- " ++
                 chatContextSummary req ++
                 " --- REPORT CONTEXT END ---" ++ post))
      (snd (serve t (handleChat cfg req))).
Proof.
  intros cfg req t. destruct (key_missing cfg) eqn:Hkey.
  - unfold serve, handleChat. rewrite Hkey. constructor.
  - destruct (key_present_inv cfg Hkey) as (k & Hk & Hne).
    rewrite (serve_handleChat cfg Hkey). cbn [snd].
    constructor; [| constructor].
    split; [exists k; repeat split; auto; now apply apiUrl_key |].
    split; [reflexivity |].
    exists ("You are a helpful and friendly Vastu Shastra AI assistant." ++
            nl ++
            "        Your goal is to answer the user's questions. If the user asks a question about the Vastu analysis report, you MUST use the following context: "),
           (nl ++
            "        If the user asks a general Vastu question, answer it concisely." ++
            nl ++
            "        Keep your answers simple and friendly. You may use **bold markdown** for emphasis. For bulleted lists, you MUST use a dash (-) and NOT an asterisk (" ++ "*" ++ ").").
    cbn [chat_call body systemInstruction]. unfold chatSystemPrompt.
    cbn [render fold_right piece_text].
    rewrite !append_assoc, append_nil_r. reflexivity.
Qed.

(** X18: the text of an answer is read from the first part of the first
    candidate only; further candidates and further parts of the answer are
    ignored, and so are other fields of the objects on the way. *)
Theorem only_the_first_candidate_is_read :
  forall (result candidate content part : list (string * json))
         (more_candidates more_parts : list json) (v : json),
    lookup "candidates" result =
      Some (JArr (JObj candidate :: more_candidates)) ->
    lookup "content" candidate = Some (JObj content) ->
    lookup "parts" content = Some (JArr (JObj part :: more_parts)) ->
    lookup "text" part = Some v ->
    candidate_text (JObj result) = Some v.
Proof.
  intros result candidate content part more_candidates more_parts v
         Hcandidates Hcontent Hparts Htext.
  unfold candidate_text.
  cbn [get key_string]. rewrite Hcandidates.
  cbn [opt_get get nth_error key_string]. rewrite Hcontent.
  cbn [opt_get get key_string]. rewrite Hparts.
  cbn [opt_get get nth_error key_string]. exact Htext.
Qed.

Lemma only_the_first_candidate_witness :
  candidate_text
    (JObj [("candidates",
            JArr [JObj [("content",
                         JObj [("role", JStr "model");
                               ("parts",
                                JArr [JObj [("text", JStr "first")];
                                      JObj [("text", JStr "second")]])]);
                        ("finishReason", JStr "STOP")];
                  JObj [("content",
                         JObj [("parts",
                                JArr [JObj [("text", JStr "other")]])])]]);
           ("usageMetadata", JObj [])]) =
  Some (JStr "first").
Proof.
  apply (only_the_first_candidate_is_read _
           [("content",
             JObj [("role", JStr "model");
                   ("parts",
                    JArr [JObj [("text", JStr "first")];
                          JObj [("text", JStr "second")]])]);
            ("finishReason", JStr "STOP")]
           [("role", JStr "model");
            ("parts",
             JArr [JObj [("text", JStr "first")];
                   JObj [("text", JStr "second")]])]
           [("text", JStr "first")]
           [JObj [("content",
                   JObj [("parts",
                          JArr [JObj [("text", JStr "other")]])])]]
           [JObj [("text", JStr "second")]]);
    reflexivity.
Defined.

End CallFacts.

(** ** Characters of printed numbers *)

Section Lacks.
Import JSString JSNumber.

Variable c : ascii.
Hypothesis not_digit : is_digit c = false.
Hypothesis not_punctuation : has_char c ".e+-" = false.
Hypothesis not_in_words : has_char c "NaInfity" = false.

Lemma digit_differs (d : ascii) :
  is_digit d = true -> Ascii.eqb d c = false.
Proof.
  intros Hd. destruct (Ascii.eqb_spec d c) as [E | _]; [| reflexivity].
  rewrite E, not_digit in Hd. discriminate.
Qed.

Lemma repeat0_lacks (n : nat) : has_char c (repeat0 n) = false.
Proof.
  induction n as [| n IH]; [reflexivity |].
  cbn [repeat0 append has_char]. rewrite IH, digit_differs; reflexivity.
Qed.

Lemma substring_lacks (s : string) :
  forall n k : nat,
    has_char c s = false -> has_char c (substring n k s) = false.
Proof.
  induction s as [| x s IH]; intros n k H.
  - destruct n, k; reflexivity.
  - cbn [has_char] in H. apply orb_false_iff in H. destruct H as [Hx Hs].
    destruct n as [| n]; [destruct k as [| k] |]; cbn [substring has_char].
    + reflexivity.
    + rewrite Hx. now apply IH.
    + now apply IH.
Qed.

Lemma format_shortest_lacks (s n : Z) :
  has_char c (format_shortest s n) = false.
Proof.
  pose proof not_punctuation as Hp. cbn [has_char] in Hp.
  rewrite !orb_false_iff in Hp. destruct Hp as (Hdot & He & Hplus & Hminus & _).
  pose proof (digits_only_digits c s not_digit) as Hds.
  unfold format_shortest.
  repeat match goal with
         | |- context [if ?b then _ else _] => destruct b
         end;
    rewrite ?has_char_app, ?Hds, ?repeat0_lacks,
            ?(substring_lacks _ _ _ Hds),
            ?(digits_only_digits c _ not_digit);
    cbn [has_char orb];
    rewrite ?Hdot, ?He, ?Hplus, ?Hminus, ?(digit_differs "0");
    reflexivity.
Qed.

Lemma toString_lacks (x : number) : has_char c (toString x) = false.
Proof.
  pose proof not_punctuation as Hp. cbn [has_char] in Hp.
  rewrite !orb_false_iff in Hp. destruct Hp as (_ & _ & _ & Hminus & _).
  pose proof not_in_words as Hw. cbn [has_char] in Hw.
  rewrite !orb_false_iff in Hw.
  destruct Hw as (HN & Ha & HI & Hn & Hf & Hi & Ht & Hy & _).
  unfold toString. destruct (Prim2SF x) as [sg | sg | | sg m e].
  - cbn [has_char]. now rewrite (digit_differs "0").
  - destruct sg; cbn [has_char];
      rewrite ?Hminus, HI, Hn, Hf, Hi, Ht, Hy; reflexivity.
  - cbn [has_char]. now rewrite HN, Ha.
  - destruct (shortest m e) as [s n].
    rewrite has_char_app, format_shortest_lacks.
    destruct sg; cbn [has_char]; rewrite ?Hminus; reflexivity.
Qed.

End Lacks.

(** ** The fields of the final prompt *)

Section PromptFacts.
Import JSString JSON Effect Server.

(** X10: the core assessment enters the final prompt once and verbatim,
    right under the heading that declares it the basis for all remedies;
    the text before and after it does not depend on it. *)
Theorem core_assessment_is_embedded_verbatim :
  forall (sd : ScanData) (isDeep : bool),
  exists pre post : string,
    forall coreAssessment : string,
      getAiQuery sd isDeep coreAssessment =
      pre ++
      "CORE VASTU FINDINGS (MUST BE USED AS THE BASIS FOR ALL REMEDIES):" ++
      nl ++ "        " ++ coreAssessment ++ post.
Proof.
  intros sd isDeep.
  pose (rest :=
    shared_context_1 ++ currentRoomTag sd ++
    shared_context_2 ++ currentRoomTag sd ++
    shared_context_3 ++ or_default (roomLocationInHouse sd) "UNKNOWN" ++
    shared_context_4 ++ floor_text (floorNumber sd) ++
    shared_context_5 ++ holisticIssues sd ++
    shared_context_6 ++ holisticSurroundings sd ++
    shared_context_7 ++ JSNumber.toFixed1 (avgHeading sd) ++
    shared_context_8 ++ vastuZonesObserved sd ++ shared_context_9).
  destruct isDeep.
  - exists (deep_template_0 ++ nl ++ "        "), (rest ++ deep_template_1).
    intros coreAssessment. unfold getAiQuery, sharedContext, rest.
    cbn [render fold_right piece_text].
    rewrite !append_assoc, !append_nil_r. reflexivity.
  - exists (standard_template_0 ++ nl ++ "        "),
           (rest ++ standard_template_1 ++ currentRoomTag sd ++
            standard_template_2 ++ roomLocationInHouse sd ++
            standard_template_3).
    intros coreAssessment. unfold getAiQuery, sharedContext, rest.
    cbn [render fold_right piece_text].
    rewrite !append_assoc, !append_nil_r. reflexivity.
Qed.

Lemma getAiQuery_floor_line (sd : ScanData) (isDeep : bool)
  (coreAssessment : string) :
  exists pre post : string,
    getAiQuery sd isDeep coreAssessment =
    pre ++ " zone of the house." ++ nl ++ "        - Floor: " ++
    floor_text (floorNumber sd) ++ nl ++ "        - User's Concerns: " ++
    post.
Proof.
  pose (before :=
    shared_context_0 ++ coreAssessment ++
    shared_context_1 ++ currentRoomTag sd ++
    shared_context_2 ++ currentRoomTag sd ++
    shared_context_3 ++ or_default (roomLocationInHouse sd) "UNKNOWN").
  pose (after :=
    holisticIssues sd ++
    shared_context_6 ++ holisticSurroundings sd ++
    shared_context_7 ++ JSNumber.toFixed1 (avgHeading sd) ++
    shared_context_8 ++ vastuZonesObserved sd ++ shared_context_9).
  destruct isDeep.
  - exists (deep_template_0 ++ before), (after ++ deep_template_1).
    unfold getAiQuery, sharedContext, before, after.
    cbn [render fold_right piece_text].
    rewrite !append_assoc, !append_nil_r. reflexivity.
  - exists (standard_template_0 ++ before),
           (after ++ standard_template_1 ++ currentRoomTag sd ++
            standard_template_2 ++ roomLocationInHouse sd ++
            standard_template_3).
    unfold getAiQuery, sharedContext, before, after.
    cbn [render fold_right piece_text].
    rewrite !append_assoc, !append_nil_r. reflexivity.
Qed.

(** X11: the floor line of the final prompt reads [N/A] exactly when the
    floor is the empty string, the string [N/A] itself, or a number that
    is falsy (0, -0 or NaN); so a ground floor given as the number 0 is
    reported as [N/A], while the string ["0"] is kept. *)
Theorem floor_line_is_NA_iff :
  forall (sd : ScanData) (isDeep : bool) (coreAssessment : string),
    (exists pre post : string,
        getAiQuery sd isDeep coreAssessment =
        pre ++ " zone of the house." ++ nl ++ "        - Floor: " ++
        floor_text (floorNumber sd) ++ nl ++
        "        - User's Concerns: " ++ post) /\
    (floor_text (floorNumber sd) = "N/A" <->
     floorNumber sd = FloorString "" \/
     floorNumber sd = FloorString "N/A" \/
     exists x : JSNumber.number,
       floorNumber sd = FloorNumeric x /\ JSNumber.truthy x = false) /\
    floor_text (FloorNumeric 0%float) = "N/A" /\
    floor_text (FloorString "0") = "0".
Proof.
  intros sd isDeep coreAssessment.
  split; [apply getAiQuery_floor_line |].
  split; [| split; reflexivity].
  destruct (floorNumber sd) as [s | x]; unfold floor_text; split.
  - destruct s as [| ch s]; [now left |]. cbn [or_default].
    intros ->. right; now left.
  - intros [H | [H | (x & H & _)]]; try discriminate;
      injection H as ->; reflexivity.
  - destruct (JSNumber.truthy x) eqn:Hx.
    + intros H. exfalso.
      assert (Hs : has_char "/" (JSNumber.toString x) = false)
        by (apply toString_lacks; reflexivity).
      rewrite H in Hs. discriminate.
    + intros _. right; right. now exists x.
  - intros [H | [H | (y & H & Hy)]]; try discriminate.
    injection H as ->. now rewrite Hy.
Qed.

(** X12: with an empty room location the standard prompt names the zone
    [UNKNOWN] in its context block, yet its executive-summary instruction
    interpolates the location without that fallback and reads
    [based on its location ()]. *)
Theorem empty_location_in_standard_prompt :
  forall (sd : ScanData) (coreAssessment : string),
    roomLocationInHouse sd = "" ->
    exists p1 p2 p3 : string,
      getAiQuery sd false coreAssessment =
      p1 ++ " is in the UNKNOWN zone of the house." ++ p2 ++
      ") based on its location ()." ++ p3.
Proof.
  intros sd coreAssessment Hloc.
  exists (standard_template_0 ++
          shared_context_0 ++ coreAssessment ++
          shared_context_1 ++ currentRoomTag sd ++
          shared_context_2 ++ currentRoomTag sd),
         (nl ++ "        - Floor: " ++ floor_text (floorNumber sd) ++
          shared_context_5 ++ holisticIssues sd ++
          shared_context_6 ++ holisticSurroundings sd ++
          shared_context_7 ++ JSNumber.toFixed1 (avgHeading sd) ++
          shared_context_8 ++ vastuZonesObserved sd ++ shared_context_9 ++
          standard_template_1 ++ currentRoomTag sd).
  exists (String.substring 2 (String.length standard_template_3)
            standard_template_3).
  unfold getAiQuery, sharedContext. rewrite Hloc.
  cbn [render fold_right piece_text or_default].
  rewrite !append_assoc, !append_nil_r. reflexivity.
Qed.

Lemma empty_location_witness :
  exists p1 p2 p3 : string,
    getAiQuery
      {| capturedFrames := Sample.three_frames;
         currentRoomTag := "Kitchen";
         roomLocationInHouse := "";
         floorNumber := FloorNumeric 0%float;
         holisticIssues := "Poor sleep";
         holisticSurroundings := "Park to the north" |}
      false "CoreAssessmentMock" =
    p1 ++ " is in the UNKNOWN zone of the house." ++ p2 ++
    ") based on its location ()." ++ p3.
Proof.
  apply (empty_location_in_standard_prompt
           {| capturedFrames := Sample.three_frames;
              currentRoomTag := "Kitchen";
              roomLocationInHouse := "";
              floorNumber := FloorNumeric 0%float;
              holisticIssues := "Poor sleep";
              holisticSurroundings := "Park to the north" |}
           "CoreAssessmentMock").
  reflexivity.
Defined.

(** X13: the final instruction text depends on the frames only through
    their headings and zone labels: two scans with the same text fields
    whose frames have the same headings and zones give the same prompt,
    whatever the images are. *)
Theorem prompt_ignores_images :
  forall (sd sd' : ScanData) (isDeep : bool) (coreAssessment : string),
    map heading (capturedFrames sd) = map heading (capturedFrames sd') ->
    map zone (capturedFrames sd) = map zone (capturedFrames sd') ->
    currentRoomTag sd = currentRoomTag sd' ->
    roomLocationInHouse sd = roomLocationInHouse sd' ->
    floorNumber sd = floorNumber sd' ->
    holisticIssues sd = holisticIssues sd' ->
    holisticSurroundings sd = holisticSurroundings sd' ->
    getAiQuery sd isDeep coreAssessment =
    getAiQuery sd' isDeep coreAssessment.
Proof.
  intros sd sd' isDeep coreAssessment Hh Hz Htag Hloc Hfloor Hiss Hsur.
  unfold getAiQuery, sharedContext, vastuZonesObserved.
  rewrite !avgHeading_headings, Hh, Hz, Htag, Hloc, Hfloor, Hiss, Hsur.
  reflexivity.
Qed.

Lemma prompt_ignores_images_witness :
  getAiQuery (Sample.scan Sample.three_frames) true "CoreAssessmentMock" =
  getAiQuery
    (Sample.scan
       [{| image := "AAAA"; heading := 10%float; zone := "North" |};
        {| image := "BBBB"; heading := 20%float; zone := "South" |};
        {| image := "CCCC"; heading := 30%float; zone := "North" |}])
    true "CoreAssessmentMock".
Proof.
  apply prompt_ignores_images; reflexivity.
Defined.

End PromptFacts.

(** ** The first revision *)

Section FirstRevisionFacts.
Import JSString JSON Effect Server.

Lemma collect_frames_spec (frames : list Frame) :
  forall (index : nat) (imageParts textMetadataParts : list Part),
    ServerV1.collect_frames frames index imageParts textMetadataParts =
    ((imageParts ++ map Spec.image_part frames)%list,
     (textMetadataParts ++ Spec.markers frames index)%list).
Proof.
  induction frames as [| frame rest IH];
    intros index imageParts textMetadataParts; simpl.
  - now rewrite !app_nil_r.
  - rewrite IH, <- !app_assoc. reflexivity.
Qed.

Lemma frame_parts_v1 (sd : ScanData) :
  ServerV1.frame_parts sd =
  (map Spec.image_part (capturedFrames sd) ++
   Spec.markers (capturedFrames sd) 0)%list.
Proof.
  unfold ServerV1.frame_parts. rewrite collect_frames_spec. reflexivity.
Qed.





Lemma interleaved_permutation (frames : list Frame) :
  forall index : nat,
    Permutation
      (map Spec.image_part frames ++ Spec.markers frames index)
      (Spec.interleaved frames index).
Proof.
  induction frames as [| frame rest IH]; intros index; simpl.
  - constructor.
  - constructor. apply Permutation_sym.
    apply Permutation_cons_app. apply Permutation_sym. apply IH.
Qed.

(** X15: the second revision sends the same image and marker parts as
    the first, rearranged: its frame parts are a permutation of the first
    revision's. *)
Theorem revisions_send_the_same_frame_parts :
  forall sd : ScanData,
    Permutation (ServerV1.frame_parts sd) (Server.frame_parts sd).
Proof.
  intros sd. rewrite frame_parts_v1, frame_parts_interleaved.
  apply interleaved_permutation.
Qed.

(** The paths of the report handler of the first revision. *)
Lemma first_revision_paths (cfg : Config) (req : ReportRequest)
  (t : Transport) :
  exists (resp : HttpResponse) (log : list Call),
    serve t (ServerV1.generateReport cfg req) = (Returned resp, log) /\
    ((httpStatus resp = 200 /\
      exists (r : Response) (j : json),
        log = [ServerV1.report_call cfg req] /\
        t log = Resolved r /\ ok r = true /\ bodyJson r = inl j /\
        httpBody resp = JObj [("text", or_else (candidate_text j) "")])
     \/
     (httpStatus resp = 500 /\
      exists message : string,
        httpBody resp = JObj [("error", JStr message)] /\
        (log = [] \/ log = [ServerV1.report_call cfg req]))).
Proof.
  destruct (key_missing cfg) eqn:Hkey.
  - exists (Answer.failed "Server API Key is not configured."), [].
    split.
    + unfold serve, ServerV1.generateReport. now rewrite Hkey.
    + right. split; [reflexivity |]. eexists. split; [reflexivity | now left].
  - rewrite (serve_generateReport_v1 cfg Hkey).
    destruct (Answer.outcome _ "" _) as [v | m] eqn:H1.
    + destruct (outcome_returned_inv _ _ _ _ H1)
        as (r & j & Ht & Hok & Hj & _ & ->).
      eexists; eexists; split; [reflexivity |]. left.
      split; [reflexivity |]. exists r, j. repeat split; assumption.
    + eexists; eexists; split; [reflexivity |]. right.
      split; [reflexivity |]. eexists. split; [reflexivity | now right].
Qed.

(** X16: in the first revision, when the call a report request awaits has
    settled and the handler is done, no error has escaped it and it has
    answered after at most one call.  With HTTP 200, when the call was
    answered with a success status and a body that parses: the [text] is
    the first candidate's text when that is a string, and the empty
    string when the answer carries no such text (no placeholder, no
    separator).  Or with HTTP 500 and an [error] message.  (Nothing is
    said of a first-candidate text that is not a string.) *)
Theorem first_revision_answers_200_or_500 :
  forall (cfg : Config) (req : ReportRequest) (t : Transport)
         (outcome : Outcome HttpResponse) (log : list Call),
    serve t (ServerV1.generateReport cfg req) = (outcome, log) ->
    exists resp : HttpResponse,
      outcome = Returned resp /\
      ((httpStatus resp = 200 /\
        exists (r : Response) (j : json),
          log = [ServerV1.report_call cfg req] /\
          t log = Resolved r /\ ok r = true /\ bodyJson r = inl j /\
          (candidate_text j = None ->
           httpBody resp = JObj [("text", JStr "")]) /\
          (forall s : string,
              candidate_text j = Some (JStr s) ->
              httpBody resp = JObj [("text", JStr s)]))
       \/
       (httpStatus resp = 500 /\
        exists message : string,
          httpBody resp = JObj [("error", JStr message)] /\
          (log = [] \/ log = [ServerV1.report_call cfg req]))).
Proof.
  intros cfg req t outcome log Hrun.
  destruct (first_revision_paths cfg req t) as (resp & log' & E & H).
  rewrite E in Hrun. injection Hrun as <- <-.
  exists resp. split; [reflexivity |].
  destruct H as [(H200 & r & j & Hlog & Ht & Hok & Hj & Hbody) | H500];
    [left | right; exact H500].
  split; [exact H200 |]. exists r, j.
  repeat split; try assumption.
  - intros Hnone. now rewrite Hbody, Hnone.
  - intros s Hs. rewrite Hbody, Hs. cbn [or_else truthy].
    destruct (String.eqb_spec s "") as [-> |]; reflexivity.
Qed.

Lemma first_revision_answers_witness :
  exists resp : HttpResponse,
    Returned {| httpStatus := 200;
                httpBody := JObj [("text", JStr "ReportMock")] |} =
    Returned resp /\
    (httpStatus resp = 200 \/ httpStatus resp = 500).
Proof.
  destruct (first_revision_answers_200_or_500 Sample.cfg
              (Sample.report false Sample.three_frames)
              (Mock.echo ["ReportMock"])
              (Returned {| httpStatus := 200;
                           httpBody := JObj [("text",
                             JStr "ReportMock")] |})
              [ServerV1.report_call Sample.cfg
                 (Sample.report false Sample.three_frames)]
              eq_refl)
    as (resp & E & [[H _] | [H _]]);
    exists resp; (split; [exact E |]); [left | right]; exact H.
Defined.

(** X17: the deep-analysis prompt of the first revision does not report
    the headings: scans that differ only in the headings and images of
    their frames give the same deep prompt. *)
Theorem first_revision_deep_prompt_ignores_headings :
  forall sd sd' : ScanData,
    map zone (capturedFrames sd) = map zone (capturedFrames sd') ->
    currentRoomTag sd = currentRoomTag sd' ->
    roomLocationInHouse sd = roomLocationInHouse sd' ->
    floorNumber sd = floorNumber sd' ->
    holisticIssues sd = holisticIssues sd' ->
    holisticSurroundings sd = holisticSurroundings sd' ->
    ServerV1.getAiQuery sd true = ServerV1.getAiQuery sd' true.
Proof.
  intros sd sd' Hz Htag Hloc Hfloor Hiss Hsur.
  unfold ServerV1.getAiQuery, vastuZonesObserved.
  rewrite Hz, Htag, Hloc, Hfloor, Hiss, Hsur. reflexivity.
Qed.

Lemma first_revision_deep_prompt_witness :
  ServerV1.getAiQuery (Sample.scan Sample.three_frames) true =
  ServerV1.getAiQuery
    (Sample.scan
       [{| image := "AAAA"; heading := 350%float; zone := "North" |};
        {| image := "BBBB"; heading := 180%float; zone := "South" |};
        {| image := "CCCC"; heading := 5%float; zone := "North" |}])
    true.
Proof.
  apply first_revision_deep_prompt_ignores_headings; reflexivity.
Defined.

End FirstRevisionFacts.
